(** * BlogAppBackend: the data-access layer (app/crud.py) over an explicit store

    The repository functions of [app/crud.py] are embedded as functions on an
    explicit database state.  Every [await db.execute(...)], [db.add],
    [db.commit], [db.refresh] and [db.delete] of the source becomes a pure
    operation on that state; a Python exception becomes [Raise].  The store
    enforces what the schema declares: primary keys, the foreign keys of a
    comment with their [ondelete] rule, and what the specification adds for
    the two tables whose classes are not among the sources. *)

From stdpp Require Import gmap strings list fin_maps sorting.
From Stdlib Require Import ZArith Lia.

Local Open Scope Z_scope.
Local Open Scope string_scope.

(** ** Faults and the error monad *)

(** The exceptions that can leave a repository operation. *)
Inductive fault : Set :=
  | TypeError        (* passlib: the secret is not a string *)
  | ValidationError  (* pydantic: a declared field is missing *)
  | IntegrityError   (* the store rejects a constraint violation *)
  | StatementError   (* the driver cannot bind a statement parameter *)
  | InvalidRequestError.  (* the session cannot reload an object *)

Inductive outcome (A : Type) : Type :=
  | Ok (a : A)
  | Raise (e : fault).
Arguments Ok {A} a.
Arguments Raise {A} e.

(** Sequencing stops at the first exception; [x ← m; k] is stdpp's notation
    for it. *)
Global Instance outcome_bind : MBind outcome := λ A B k m,
  match m with
  | Ok a => k a
  | Raise e => Raise e
  end.

(** ** Python values and dictionaries *)

(** The Python values that flow through the module: [None], integers,
    strings, datetimes (as a count of clock ticks) and the builtin function
    [id], which [get_comment] passes to a query. *)
Inductive pyval : Set :=
  | PNone
  | PInt (z : Z)
  | PStr (s : string)
  | PTime (t : Z)
  | PBuiltin_id.

Definition is_None (v : pyval) : bool :=
  match v with PNone => true | _ => false end.

(** A [dict] with string keys, in insertion order. *)
Definition pydict : Type := list (string * pyval).

Fixpoint dict_get (k : string) (d : pydict) : option pyval :=
  match d with
  | [] => None
  | (k', v) :: d' => if String.eqb k k' then Some v else dict_get k d'
  end.

(** [del d[k]] *)
Fixpoint dict_del (k : string) (d : pydict) : pydict :=
  match d with
  | [] => []
  | (k', v) :: d' => if String.eqb k k' then dict_del k d' else (k', v) :: dict_del k d'
  end.

(** [d[k] = v]: an existing key keeps its position, a new key goes last. *)
Fixpoint dict_set (k : string) (v : pyval) (d : pydict) : pydict :=
  match d with
  | [] => [(k, v)]
  | (k', v') :: d' => if String.eqb k k' then (k, v) :: d' else (k', v') :: dict_set k v d'
  end.

(** Construction of a pydantic model from a dictionary unpacked into keyword
    arguments: every declared field is read from them, a keyword that is not
    declared is ignored, and a missing field is a validation error. *)
Fixpoint schema_init (fields : list string) (kwargs : pydict) : outcome pydict :=
  match fields with
  | [] => Ok []
  | f :: fields' =>
      match dict_get f kwargs with
      | Some v => rest ← schema_init fields' kwargs; Ok ((f, v) :: rest)
      | None => Raise ValidationError
      end
  end.

(** ** The entity schema (app/models) *)

(** Every table is a finite map from the primary key [id] to the other
    columns of the row, so a key names at most one row and never changes;
    [__dict__] puts the key back among the attributes of the loaded object. *)

Module User.
(** Modelled from the spec: the [users] table ([models.User] is not among
    the sources): id (integer, primary, system-generated), username
    (string, unique), email (string), hashed_password (string). *)
Record t : Set := mk {
  username : string;
  email : string;
  hashed_password : string
}.

Definition __dict__ (id : Z) (u : t) : pydict :=
  [("id", PInt id); ("username", PStr (username u));
   ("email", PStr (email u)); ("hashed_password", PStr (hashed_password u))].

(** [setattr(u, key, value)] on a mapped column, for the string values an
    update payload carries; any other attribute name lands on the Python
    object only and never reaches the row. *)
Definition setattr (u : t) (key : string) (value : pyval) : t :=
  match value with
  | PStr s =>
      if String.eqb key "username" then mk s (email u) (hashed_password u)
      else if String.eqb key "email" then mk (username u) s (hashed_password u)
      else if String.eqb key "hashed_password" then mk (username u) (email u) s
      else u
  | _ => u
  end.
End User.

Module Post.
(** Modelled from the spec: the [posts] table ([models.Post] is not among
    the sources): id (integer, primary), title (string), content (string),
    owner_id (foreign key to User), created_at (timestamp, defaulted at
    creation to current UTC time). *)
Record t : Set := mk {
  title : string;
  content : string;
  owner_id : Z;
  created_at : Z
}.

Definition __dict__ (id : Z) (p : t) : pydict :=
  [("id", PInt id); ("title", PStr (title p)); ("content", PStr (content p));
   ("owner_id", PInt (owner_id p)); ("created_at", PTime (created_at p))].

Definition setattr (p : t) (key : string) (value : pyval) : t :=
  match value with
  | PStr s =>
      if String.eqb key "title" then mk s (content p) (owner_id p) (created_at p)
      else if String.eqb key "content" then mk (title p) s (owner_id p) (created_at p)
      else p
  | _ => p
  end.
End Post.

Module Comment.
(** [class Comment(Base)] of app/models/comment_model.py, keyed by [id].
    [post_id] is a foreign key to [posts.id] with [ondelete="CASCADE"],
    [owner_id] a foreign key to [users.id]; the operations of crud.py only
    ever write integers to both. *)
Record t : Set := mk {
  post_id : Z;
  content : string;
  owner_id : Z;
  created_at : Z
}.

Definition __dict__ (id : Z) (c : t) : pydict :=
  [("id", PInt id); ("post_id", PInt (post_id c)); ("content", PStr (content c));
   ("owner_id", PInt (owner_id c)); ("created_at", PTime (created_at c))].

(** [old_comment.content = s] *)
Definition set_content (c : t) (s : string) : t :=
  mk (post_id c) s (owner_id c) (created_at c).
End Comment.

(** ** The store *)

Record DB : Type := mkDB {
  users : gmap Z User.t;
  posts : gmap Z Post.t;
  comments : gmap Z Comment.t
}.

Definition empty_db : DB := mkDB ∅ ∅ ∅.

(** The key the store generates for a new row: above every key in use. *)
Definition next_id {A} (m : gmap Z A) : Z :=
  map_fold (λ k _ acc, Z.max (k + 1) acc) 1 m.

(** Modelled from the spec: [username] is unique, enforced by storage. *)
Definition username_taken (db : DB) (name : string) : bool :=
  bool_decide (map_Exists (λ _ u, User.username u = name) (users db)).

(** ** The request and response shapes (app/schemas) *)

Module schemas.
(** A field of a partial-update request: left unset, explicitly [None], or
    given a value. *)
Inductive field : Set :=
  | Unset
  | Null
  | Given (s : string).

(** The entry a field contributes to [model_dump(exclude_unset=True)]. *)
Definition dump_field (k : string) (f : field) : pydict :=
  match f with
  | Unset => []
  | Null => [(k, PNone)]
  | Given s => [(k, PStr s)]
  end.

(** Modelled from the spec: the outbound projection shapes (the schemas
    module is not among the sources): User-public \{id, username, email\},
    User-create-response \{username, email, password\}, Post \{id, title,
    content, owner_id, created_at\}, Comment \{id, content, post_id,
    owner_id, created_at\}. *)
Definition User : list string := ["id"; "username"; "email"].
Definition UserBase : list string := ["username"; "email"; "password"].
Definition PostRead : list string :=
  ["id"; "title"; "content"; "owner_id"; "created_at"].
Definition CommentRead : list string :=
  ["id"; "content"; "post_id"; "owner_id"; "created_at"].

(** Modelled from the spec: the two projections of the lookups by username
    (the schemas module is not among the sources): the public variant
    excludes the hashed credential, the privileged variant includes it. *)
Definition UserRead : list string := ["id"; "username"; "email"].
Definition UserFullInfo : list string :=
  ["id"; "username"; "email"; "hashed_password"].

Module UserCreate.
(** Modelled from the spec: the user-create request carries a username,
    an email and a plaintext password. *)
Record t : Set := mk { username : string; email : string; password : string }.
Definition __dict__ (r : t) : pydict :=
  [("username", PStr (username r)); ("email", PStr (email r));
   ("password", PStr (password r))].
End UserCreate.

Module UserUpdate.
(** Modelled from the spec: a partial field set over username, email and
    password. *)
Record t : Set := mk { username : field; email : field; password : field }.
Definition model_dump (r : t) : pydict :=
  (dump_field "username" (username r) ++ dump_field "email" (email r)
     ++ dump_field "password" (password r))%list.
End UserUpdate.

Module PostCreate.
Record t : Set := mk { title : string; content : string; owner_id : Z }.
End PostCreate.

Module PostUpdate.
(** Modelled from the spec: a partial field set over title and content. *)
Record t : Set := mk { title : field; content : field }.
Definition dict (r : t) : pydict :=
  (dump_field "title" (title r) ++ dump_field "content" (content r))%list.
End PostUpdate.

Module CommentCreate.
Record t : Set := mk { content : string }.
End CommentCreate.

Module CommentUpdate.
Record t : Set := mk { content : string }.
End CommentUpdate.
End schemas.

(** ** The session: queries and units of work *)

(** [select(models.X).filter(models.X.id == operand)] followed by
    [.scalars().first()].  The operand is bound as a parameter of an integer
    column: an integer selects the row with that primary key, anything else
    cannot be bound and the statement fails.  The loaded object carries its
    key. *)
Definition first_by_id {A} (table : gmap Z A) (operand : pyval)
    : outcome (option (Z * A)) :=
  match operand with
  | PInt z => Ok (pair z <$> table !! z)
  | _ => Raise StatementError
  end.

(** [await db.refresh(obj)]: the attributes of the object are read again from
    its row. *)
Definition refresh {A} (table : gmap Z A) (id : Z) : outcome A :=
  match table !! id with
  | Some row => Ok row
  | None => Raise InvalidRequestError
  end.

(** Truth value of a query result: [None] is false, a mapped object (which
    defines neither [__bool__] nor [__len__]) is true. *)
Definition truthy {A} (obj : option A) : bool :=
  match obj with
  | Some _ => true
  | None => false
  end.

(** Truth value of a string: the empty string is false. *)
Definition truthy_str (s : string) : bool :=
  match s with
  | EmptyString => false
  | String _ _ => true
  end.

(** [db.add(new_user); await db.commit()] for a new user: the store assigns
    the key and rejects a username in use. *)
Definition insert_user (db : DB) (new : User.t) : outcome (Z * DB) :=
  if username_taken db (User.username new) then Raise IntegrityError
  else
    let id := next_id (users db) in
    Ok (id, mkDB (<[id := new]> (users db)) (posts db) (comments db)).

(** [db.add(old_user); await db.commit()] for the loaded user [id], read as
    [old], whose attributes now are [new]: only a changed username is checked
    against the other rows. *)
Definition commit_user (db : DB) (id : Z) (old new : User.t) : outcome DB :=
  if bool_decide (User.username new ≠ User.username old)
     && username_taken db (User.username new)
  then Raise IntegrityError
  else Ok (mkDB (<[id := new]> (users db)) (posts db) (comments db)).

(** Modelled from the spec: [owner_id] of a post is a foreign key to User, so
    the store takes a new post only if its owner exists. *)
Definition insert_post (db : DB) (new : Post.t) : outcome (Z * DB) :=
  if bool_decide (is_Some (users db !! Post.owner_id new)) then
    let id := next_id (posts db) in
    Ok (id, mkDB (users db) (<[id := new]> (posts db)) (comments db))
  else Raise IntegrityError.

Definition commit_post (db : DB) (id : Z) (new : Post.t) : outcome DB :=
  Ok (mkDB (users db) (<[id := new]> (posts db)) (comments db)).

(** Modelled from the spec: a post owns its comments with cascade delete on
    post removal.  [models.Post], which declares the post side of the
    relationship, is not among the sources; the comment side is
    [ForeignKey('posts.id', ondelete="CASCADE")] in comment_model.py.  So
    [await db.delete(old_post); await db.commit()] removes the row and every
    comment whose [post_id] references it. *)
Definition delete_post_row (db : DB) (id : Z) : DB :=
  mkDB (users db)
       (delete id (posts db))
       (filter (λ kc, Comment.post_id kc.2 ≠ id) (comments db)).

(** [db.add(new_comment); await db.commit()]: [post_id] and [owner_id] are
    foreign keys, so the post and the owner must exist. *)
Definition insert_comment (db : DB) (new : Comment.t) : outcome (Z * DB) :=
  if bool_decide (is_Some (posts db !! Comment.post_id new))
     && bool_decide (is_Some (users db !! Comment.owner_id new))
  then
    let id := next_id (comments db) in
    Ok (id, mkDB (users db) (posts db) (<[id := new]> (comments db)))
  else Raise IntegrityError.

Definition commit_comment (db : DB) (id : Z) (new : Comment.t) : outcome DB :=
  Ok (mkDB (users db) (posts db) (<[id := new]> (comments db))).

(** [order_by(models.Post.created_at.desc())]: row [p] may come before [q]. *)
Definition newest_first (p q : Z * Post.t) : Prop :=
  (Post.created_at q.2 ≤ Post.created_at p.2)%Z.

Global Instance newest_first_dec p q : Decision (newest_first p q).
Proof. unfold newest_first. apply _. Defined.

(** The query of [get_posts]: filter on the owner, [order_by], [offset(skip)],
    [limit(limit)], then [.scalars().all()]. *)
Definition select_posts (db : DB) (owner_id : Z) (skip limit : nat) : list (Z * Post.t) :=
  take limit (drop skip
    (merge_sort newest_first
       (filter (λ kp, Post.owner_id kp.2 = owner_id) (map_to_list (posts db))))).

(** The projections of a list of rows. *)
Fixpoint project_all {A} (fields : list string) (dict : Z → A → pydict)
    (rows : list (Z * A)) : outcome (list pydict) :=
  match rows with
  | [] => Ok []
  | (id, r) :: rows' =>
      p ← schema_init fields (dict id r);
      ps ← project_all fields dict rows';
      Ok (p :: ps)
  end.

(** ** The password hasher *)

(** [pwd_context = CryptContext(schemes=["bcrypt"], deprecated="auto")]: the
    scheme itself is passlib's; it enters as a parameter.  [hash] draws a
    random salt on every call, which is made an explicit argument. *)
Record CryptContext : Type := {
  hash : string → string → string;
  verify : string → string → bool
}.

(** ** The repository operations (app/crud.py)

    An operation that reads the clock ([created_at] defaults to
    [datetime.utcnow]) or draws a salt takes the reading as an argument. *)

Section Crud.
Variable pwd_context : CryptContext.

(** [pwd_context.hash(password)].  passlib accepts a string secret only and
    raises [TypeError] for any other value. *)
Definition hash_password (salt : string) (password : pyval) : outcome string :=
  match password with
  | PStr s => Ok (hash pwd_context salt s)
  | _ => Raise TypeError
  end.

Definition verify_password (plain_password hashed_password : string) : bool :=
  verify pwd_context plain_password hashed_password.

Definition get_user (db : DB) (user_id : Z) : outcome (option pydict) :=
  user ← first_by_id (users db) (PInt user_id);
  match user with
  | Some (id, u) => p ← schema_init schemas.User (User.__dict__ id u); Ok (Some p)
  | None => Ok None
  end.

Definition create_user (db : DB) (salt : string) (user : schemas.UserCreate.t)
    : outcome (option pydict * DB) :=
  h ← hash_password salt (PStr (schemas.UserCreate.password user));
  let new_user := User.mk (schemas.UserCreate.username user)
                          (schemas.UserCreate.email user) h in
  '(id, db') ← insert_user db new_user;
  new_user ← refresh (users db') id;
  p ← schema_init schemas.UserBase (schemas.UserCreate.__dict__ user);
  Ok (Some p, db').

(** The [for key, value in update_data.items()] loop of the update
    operations: [setattr] unless the value is [None]. *)
Definition apply_updates {A} (setattr : A → string → pyval → A)
    (old : A) (update_data : pydict) : A :=
  fold_left (λ row kv, if is_None kv.2 then row else setattr row kv.1 kv.2)
            update_data old.

(** The [if 'password' in update_data] block of [update_user]: the value
    under the key is hashed whatever it is, stored under [hashed_password],
    and the key is deleted. *)
Definition hash_update_data (salt : string) (update_data : pydict) : outcome pydict :=
  match dict_get "password" update_data with
  | Some password =>
      hashed_password ← hash_password salt password;
      Ok (dict_del "password"
            (dict_set "hashed_password" (PStr hashed_password) update_data))
  | None => Ok update_data
  end.

Definition update_user (db : DB) (salt : string) (user_id : Z)
    (user : schemas.UserUpdate.t) : outcome (option pydict * DB) :=
  old_user ← first_by_id (users db) (PInt user_id);
  match old_user with
  | Some (id, old) =>
      update_data ← hash_update_data salt (schemas.UserUpdate.model_dump user);
      let new := apply_updates User.setattr old update_data in
      db' ← commit_user db id old new;
      old_user ← refresh (users db') id;
      p ← schema_init schemas.User (User.__dict__ id old_user);
      Ok (Some p, db')
  | None => Ok (None, db)
  end.

Definition get_post (db : DB) (id : Z) : outcome (option pydict) :=
  post ← first_by_id (posts db) (PInt id);
  match post with
  | Some (id, post) =>
      p ← schema_init schemas.PostRead (Post.__dict__ id post); Ok (Some p)
  | None => Ok None
  end.

(** [skip] and [limit] are the offset and the row count of the query; the
    store takes them as non-negative numbers.  An empty page is reported as
    [None]. *)
Definition get_posts (db : DB) (owner_id : Z) (skip limit : nat)
    : outcome (option (list pydict)) :=
  let posts := select_posts db owner_id skip limit in
  match posts with
  | [] => Ok None
  | _ :: _ => ps ← project_all schemas.PostRead Post.__dict__ posts; Ok (Some ps)
  end.

Definition create_post (db : DB) (now : Z) (post : schemas.PostCreate.t)
    : outcome (pydict * DB) :=
  let new_post := Post.mk (schemas.PostCreate.title post)
                          (schemas.PostCreate.content post)
                          (schemas.PostCreate.owner_id post) now in
  '(id, db') ← insert_post db new_post;
  new_post ← refresh (posts db') id;
  p ← schema_init schemas.PostRead (Post.__dict__ id new_post);
  Ok (p, db').

Definition update_post (db : DB) (id : Z) (post : schemas.PostUpdate.t)
    : outcome (option pydict * DB) :=
  old_post ← first_by_id (posts db) (PInt id);
  match old_post with
  | Some (id, old) =>
      let update_data := schemas.PostUpdate.dict post in
      let new := apply_updates Post.setattr old update_data in
      db' ← commit_post db id new;
      old_post ← refresh (posts db') id;
      p ← schema_init schemas.PostRead (Post.__dict__ id old_post);
      Ok (Some p, db')
  | None => Ok (None, db)
  end.

Definition delete_post (db : DB) (id : Z) : outcome (bool * DB) :=
  old_post ← first_by_id (posts db) (PInt id);
  match old_post with
  | Some (id, _) => Ok (true, delete_post_row db id)
  | None => Ok (false, db)
  end.

(** The filter of the source reads [models.Comment.id == id]: inside
    [get_comment] the name [id] is not a parameter, so it denotes the
    builtin function. *)
Definition get_comment (db : DB) (comment_id : Z) : outcome (option pydict) :=
  result ← first_by_id (comments db) PBuiltin_id;
  match result with
  | Some (id, c) =>
      p ← schema_init schemas.CommentRead (Comment.__dict__ id c); Ok (Some p)
  | None => Ok None
  end.

Definition create_comment (post_id owner_id : Z) (comment : schemas.CommentCreate.t)
    (db : DB) (now : Z) : outcome (option pydict * DB) :=
  let new_comment := Comment.mk post_id (schemas.CommentCreate.content comment)
                                owner_id now in
  '(id, db') ← insert_comment db new_comment;
  new_comment ← refresh (comments db') id;
  if truthy (Some new_comment) then
    p ← schema_init schemas.CommentRead (Comment.__dict__ id new_comment);
    Ok (Some p, db')
  else Ok (None, db').

Definition update_comment (db : DB) (id : Z) (comment : schemas.CommentUpdate.t)
    : outcome (option pydict * DB) :=
  old_comment ← first_by_id (comments db) (PInt id);
  match old_comment with
  | Some (id, old) =>
      let new :=
        if truthy_str (schemas.CommentUpdate.content comment)
        then Comment.set_content old (schemas.CommentUpdate.content comment)
        else old in
      db' ← commit_comment db id new;
      old_comment ← refresh (comments db') id;
      p ← schema_init schemas.CommentRead (Comment.__dict__ id old_comment);
      Ok (Some p, db')
  | None => Ok (None, db)
  end.
End Crud.

(** ** The other operations of app/crud.py *)

(** [select(models.User).filter(models.User.username == username)] and
    [.scalars().first()]: a row with that username, if there is one.  Which
    one comes first among several is the store's choice; here it is the order
    of the table. *)
Definition first_by_username (table : gmap Z User.t) (username : string)
    : option (Z * User.t) :=
  head (filter (λ ku, User.username ku.2 = username) (map_to_list table)).

Definition get_user_by_username (db : DB) (username : string)
    : outcome (option pydict) :=
  match first_by_username (users db) username with
  | Some (id, u) =>
      p ← schema_init schemas.UserRead (User.__dict__ id u); Ok (Some p)
  | None => Ok None
  end.

Definition get_full_user_by_username (db : DB) (username : string)
    : outcome (option pydict) :=
  match first_by_username (users db) username with
  | Some (id, u) =>
      p ← schema_init schemas.UserFullInfo (User.__dict__ id u); Ok (Some p)
  | None => Ok None
  end.

(** [await db.delete(old_user); await db.commit()].  [owner_id] of a comment
    is [ForeignKey('users.id')] without an [ondelete] rule, so the store
    refuses to delete a user that a comment references; the same holds for
    the posts of the user (modelled from the spec: [owner_id] of a post is a
    foreign key to User, and only the comments of a post cascade). *)
Definition delete_user_row (db : DB) (id : Z) : outcome DB :=
  if bool_decide (map_Exists (λ _ p, Post.owner_id p = id) (posts db))
     || bool_decide (map_Exists (λ _ c, Comment.owner_id c = id) (comments db))
  then Raise IntegrityError
  else Ok (mkDB (delete id (users db)) (posts db) (comments db)).

Definition delete_user (db : DB) (user_id : Z) : outcome (bool * DB) :=
  old_user ← first_by_id (users db) (PInt user_id);
  match old_user with
  | Some (id, _) => db' ← delete_user_row db id; Ok (true, db')
  | None => Ok (false, db)
  end.

(** [order_by(models.Comment.created_at.desc())]: row [c] may come before
    [d]. *)
Definition newest_comment_first (c d : Z * Comment.t) : Prop :=
  (Comment.created_at d.2 ≤ Comment.created_at c.2)%Z.

Global Instance newest_comment_first_dec c d : Decision (newest_comment_first c d).
Proof. unfold newest_comment_first. apply _. Defined.

(** The query of [get_comments]: filter on the post, [order_by],
    [offset(skip)], [limit(limit)], then [.scalars().all()]. *)
Definition select_comments (db : DB) (post_id : Z) (skip limit : nat)
    : list (Z * Comment.t) :=
  take limit (drop skip
    (merge_sort newest_comment_first
       (filter (λ kc, Comment.post_id kc.2 = post_id) (map_to_list (comments db))))).

Definition get_comments (db : DB) (post_id : Z) (skip limit : nat)
    : outcome (option (list pydict)) :=
  let comments := select_comments db post_id skip limit in
  match comments with
  | [] => Ok None
  | _ :: _ =>
      cs ← project_all schemas.CommentRead Comment.__dict__ comments; Ok (Some cs)
  end.

(** [await db.delete(old_comment); await db.commit()]: nothing references a
    comment, so the row just goes. *)
Definition delete_comment_row (db : DB) (id : Z) : DB :=
  mkDB (users db) (posts db) (delete id (comments db)).

Definition delete_comment (db : DB) (id : Z) : outcome (bool * DB) :=
  old_comment ← first_by_id (comments db) (PInt id);
  match old_comment with
  | Some (id, _) => Ok (true, delete_comment_row db id)
  | None => Ok (false, db)
  end.

(** ** Auxiliary notions for the statements *)

(** What a field of a partial update leaves in a column that held [old]. *)
Definition applied (f : schemas.field) (old : string) : string :=
  match f with
  | schemas.Given s => s
  | _ => old
  end.

(** All posts of an owner, newest first: the rows that [get_posts] pages
    over. *)
Definition owner_posts (db : DB) (owner_id : Z) : list (Z * Post.t) :=
  merge_sort newest_first
    (filter (λ kp, Post.owner_id kp.2 = owner_id) (map_to_list (posts db))).

(** All comments of a post, newest first: the rows that [get_comments] pages
    over. *)
Definition post_comments (db : DB) (post_id : Z) : list (Z * Comment.t) :=
  merge_sort newest_comment_first
    (filter (λ kc, Comment.post_id kc.2 = post_id) (map_to_list (comments db))).

(** The projection of a comment row. *)
Definition comment_view (kc : Z * Comment.t) : pydict :=
  [("id", PInt kc.1); ("content", PStr (Comment.content kc.2));
   ("post_id", PInt (Comment.post_id kc.2));
   ("owner_id", PInt (Comment.owner_id kc.2));
   ("created_at", PTime (Comment.created_at kc.2))].

(** Referential integrity of a store: the owner of every post exists, and so
    do the post and the owner of every comment. *)
Definition references_ok (db : DB) : Prop :=
  (∀ id p, posts db !! id = Some p → is_Some (users db !! Post.owner_id p))
  ∧ (∀ id c, comments db !! id = Some c →
       is_Some (posts db !! Comment.post_id c)
       ∧ is_Some (users db !! Comment.owner_id c)).

(** A call of one of the writing operations, with its arguments. *)
Inductive call : Type :=
  | CreateUser (salt : string) (user : schemas.UserCreate.t)
  | UpdateUser (salt : string) (user_id : Z) (user : schemas.UserUpdate.t)
  | DeleteUser (user_id : Z)
  | CreatePost (now : Z) (post : schemas.PostCreate.t)
  | UpdatePost (id : Z) (post : schemas.PostUpdate.t)
  | DeletePost (id : Z)
  | CreateComment (post_id owner_id : Z) (comment : schemas.CommentCreate.t) (now : Z)
  | UpdateComment (id : Z) (comment : schemas.CommentUpdate.t)
  | DeleteComment (id : Z).

(** The store a call leaves behind; a call that raises has committed
    nothing. *)
Definition store_after (pwd_context : CryptContext) (db : DB) (c : call) : DB :=
  let after {A} (r : outcome (A * DB)) : DB :=
    match r with
    | Ok (_, db') => db'
    | Raise _ => db
    end in
  match c with
  | CreateUser salt user => after (create_user pwd_context db salt user)
  | UpdateUser salt user_id user => after (update_user pwd_context db salt user_id user)
  | DeleteUser user_id => after (delete_user db user_id)
  | CreatePost now post => after (create_post db now post)
  | UpdatePost id post => after (update_post db id post)
  | DeletePost id => after (delete_post db id)
  | CreateComment post_id owner_id comment now =>
      after (create_comment post_id owner_id comment db now)
  | UpdateComment id comment => after (update_comment db id comment)
  | DeleteComment id => after (delete_comment db id)
  end.

(** ** Sample data *)

(** A stand-in scheme for running the operations on examples: the digest is
    a two-character salt followed by the secret, each behind a marker, and a
    secret is verified by hashing it again with the salt of the digest. *)
Definition sample_context : CryptContext := {|
  hash := λ salt p, "$" +:+ salt +:+ "$" +:+ p;
  verify := λ p h, String.eqb h ("$" +:+ String.substring 1 2 h +:+ "$" +:+ p)
|}.

Definition alice : schemas.UserCreate.t :=
  schemas.UserCreate.mk "alice" "a@x.com" "secret".

Definition alice_row : User.t := User.mk "alice" "a@x.com" "$s1$secret".

(** The store after alice signed up. *)
Definition db_alice : DB := mkDB {[ 1 := alice_row ]} ∅ ∅.

(** The store after alice wrote a post at time 10 and commented on it at
    time 20. *)
Definition db_blog : DB :=
  mkDB {[ 1 := alice_row ]}
       {[ 1 := Post.mk "t" "c" 1 10 ]}
       {[ 1 := Comment.mk 1 "nice" 1 20 ]}.

(** The store after alice wrote one post at each of the given times. *)
Definition after_posts (db : DB) (times : list Z) : DB :=
  fold_left
    (λ d now,
       match create_post d now (schemas.PostCreate.mk "t" "c" 1) with
       | Ok (_, d') => d'
       | Raise _ => d
       end)
    times db.

Definition db_five : DB := after_posts db_alice [10; 20; 30; 40; 50].

(** * Properties *)

(** ** Running the monadic code *)

Lemma bind_Ok {A B} (a : A) (k : A → outcome B) : (Ok a ≫= k) = k a.
Proof. reflexivity. Qed.

Lemma bind_Raise {A B} (e : fault) (k : A → outcome B) : (Raise e ≫= k) = Raise e.
Proof. reflexivity. Qed.

Lemma first_by_id_int {A} (table : gmap Z A) (z : Z) :
  first_by_id table (PInt z) = Ok (pair z <$> table !! z).
Proof. reflexivity. Qed.

Lemma first_by_id_builtin {A} (table : gmap Z A) :
  first_by_id table PBuiltin_id = Raise StatementError.
Proof. reflexivity. Qed.

Lemma refresh_insert {A} (table : gmap Z A) (id : Z) (row : A) :
  refresh (<[id := row]> table) id = Ok row.
Proof. unfold refresh. by rewrite lookup_insert_eq. Qed.

(** After the lookup by key found a row, the operation goes on with it. *)
Ltac found H :=
  rewrite first_by_id_int, H; cbn [fmap option_fmap option_map];
  rewrite bind_Ok; cbv beta iota zeta.

(** ** Generated keys *)

Lemma next_id_above {A} (m : gmap Z A) (k : Z) (x : A) :
  m !! k = Some x → (k < next_id m)%Z.
Proof.
  unfold next_id. revert k x.
  apply (map_fold_weak_ind (λ r m, ∀ k x, m !! k = Some x → (k < r)%Z)).
  - intros k x. by rewrite lookup_empty.
  - intros i y m' r _ IH k x. rewrite lookup_insert_Some.
    intros [[-> _] | [_ Hk]]; [lia | specialize (IH _ _ Hk); lia].
Qed.

Lemma next_id_fresh {A} (m : gmap Z A) : m !! next_id m = None.
Proof.
  destruct (m !! next_id m) eqn:E; [|done].
  apply next_id_above in E. lia.
Qed.

(** ** Projections *)

Lemma project_User (id : Z) (u : User.t) :
  schema_init schemas.User (User.__dict__ id u)
  = Ok [("id", PInt id); ("username", PStr (User.username u));
        ("email", PStr (User.email u))].
Proof. reflexivity. Qed.

Lemma project_UserBase (user : schemas.UserCreate.t) :
  schema_init schemas.UserBase (schemas.UserCreate.__dict__ user)
  = Ok (schemas.UserCreate.__dict__ user).
Proof. reflexivity. Qed.

Lemma project_PostRead (id : Z) (p : Post.t) :
  schema_init schemas.PostRead (Post.__dict__ id p) = Ok (Post.__dict__ id p).
Proof. reflexivity. Qed.

Lemma project_CommentRead (id : Z) (c : Comment.t) :
  schema_init schemas.CommentRead (Comment.__dict__ id c)
  = Ok [("id", PInt id); ("content", PStr (Comment.content c));
        ("post_id", PInt (Comment.post_id c)); ("owner_id", PInt (Comment.owner_id c));
        ("created_at", PTime (Comment.created_at c))].
Proof. reflexivity. Qed.

Lemma project_all_PostRead (rows : list (Z * Post.t)) :
  project_all schemas.PostRead Post.__dict__ rows
  = Ok ((λ kp, Post.__dict__ kp.1 kp.2) <$> rows).
Proof.
  induction rows as [|[id p] rows IH]; [reflexivity|].
  cbn [project_all]. rewrite project_PostRead, bind_Ok, IH. reflexivity.
Qed.

(** ** Units of work on the users table *)

Lemma insert_user_free (db : DB) (new : User.t) :
  username_taken db (User.username new) = false →
  insert_user db new
  = Ok (next_id (users db),
        mkDB (<[next_id (users db) := new]> (users db)) (posts db) (comments db)).
Proof. intros E. unfold insert_user. by rewrite E. Qed.

Lemma commit_user_same_name (db : DB) (id : Z) (old new : User.t) :
  User.username new = User.username old →
  commit_user db id old new
  = Ok (mkDB (<[id := new]> (users db)) (posts db) (comments db)).
Proof.
  intros E. unfold commit_user.
  by rewrite bool_decide_eq_false_2 by (intros H; apply H, E).
Qed.

Lemma commit_user_free_name (db : DB) (id : Z) (old new : User.t) :
  username_taken db (User.username new) = false →
  commit_user db id old new
  = Ok (mkDB (<[id := new]> (users db)) (posts db) (comments db)).
Proof.
  intros E. unfold commit_user. rewrite E. by rewrite andb_false_r.
Qed.

(** ** The ordering of posts *)

Global Instance newest_first_total : Total newest_first.
Proof. intros p q. unfold newest_first. lia. Qed.

Global Instance newest_first_trans : Transitive newest_first.
Proof. intros p q r. unfold newest_first. lia. Qed.

Lemma owner_posts_sorted (db : DB) (owner_id : Z) :
  StronglySorted newest_first (owner_posts db owner_id).
Proof. apply StronglySorted_merge_sort; apply _. Qed.

Lemma owner_posts_NoDup (db : DB) (owner_id : Z) :
  NoDup (owner_posts db owner_id).
Proof.
  unfold owner_posts. rewrite merge_sort_Permutation.
  apply NoDup_filter, NoDup_map_to_list.
Qed.

Lemma elem_of_owner_posts (db : DB) (owner_id id : Z) (p : Post.t) :
  (id, p) ∈ owner_posts db owner_id
  ↔ posts db !! id = Some p ∧ Post.owner_id p = owner_id.
Proof.
  unfold owner_posts. rewrite merge_sort_Permutation.
  rewrite list_elem_of_filter, elem_of_map_to_list. simpl. tauto.
Qed.

Lemma get_posts_page (db : DB) (owner_id : Z) (skip limit : nat) :
  get_posts db owner_id skip limit
  = match take limit (drop skip (owner_posts db owner_id)) with
    | [] => Ok None
    | page => Ok (Some ((λ kp, Post.__dict__ kp.1 kp.2) <$> page))
    end.
Proof.
  unfold get_posts, select_posts. fold (owner_posts db owner_id).
  destruct (take limit (drop skip (owner_posts db owner_id))) as [|kp page];
    [reflexivity|].
  cbv zeta. rewrite project_all_PostRead. reflexivity.
Qed.

(** ** The sample stores are what the operations build *)

Example alice_signs_up :
  create_user sample_context empty_db "s1" alice
  = Ok (Some [("username", PStr "alice"); ("email", PStr "a@x.com");
              ("password", PStr "secret")], db_alice).
Proof. vm_compute. reflexivity. Qed.

Example alice_blogs :
  (r ← create_post db_alice 10 (schemas.PostCreate.mk "t" "c" 1);
   create_comment 1 1 (schemas.CommentCreate.mk "nice") r.2 20)
  = Ok (Some [("id", PInt 1); ("content", PStr "nice"); ("post_id", PInt 1);
              ("owner_id", PInt 1); ("created_at", PTime 20)], db_blog).
Proof. vm_compute. reflexivity. Qed.

(** Five posts written at increasing times, read with [skip=0, limit=2]: the
    two written last, the last one first. *)
Example get_posts_two_of_five :
  get_posts db_five 1 0 2
  = Ok (Some [Post.__dict__ 5 (Post.mk "t" "c" 1 50);
              Post.__dict__ 4 (Post.mk "t" "c" 1 40)]).
Proof. vm_compute. reflexivity. Qed.

(** A duplicate signup is rejected by the store. *)
Example alice_signs_up_twice :
  create_user sample_context db_alice "s2" alice = Raise IntegrityError.
Proof. vm_compute. reflexivity. Qed.

(** ** The repository operations *)

Section Properties.
Variable pwd_context : CryptContext.

(** The password block of [update_user] leaves a payload without a null
    password ready for the loop, which then writes exactly the given fields. *)
Lemma hash_update_data_applies (salt : string) (old : User.t)
    (username email password : schemas.field) :
  password ≠ schemas.Null →
  ∃ update_data,
    hash_update_data pwd_context salt
      (schemas.UserUpdate.model_dump (schemas.UserUpdate.mk username email password))
    = Ok update_data
    ∧ apply_updates User.setattr old update_data
      = User.mk (applied username (User.username old))
                (applied email (User.email old))
                (match password with
                 | schemas.Given p => hash pwd_context salt p
                 | _ => User.hashed_password old
                 end).
Proof.
  intros Hpw. destruct old as [un em hp].
  destruct username, email, password; try done; eexists; split; reflexivity.
Qed.

(** A payload without a null password is applied field by field: a given
    username and email replace the stored ones, a given password is stored as
    its digest, and every other column keeps its value.  A new username must
    be free. *)
Lemma update_user_applies (db : DB) (salt : string) (user_id : Z) (old : User.t)
    (username email password : schemas.field) :
  users db !! user_id = Some old →
  password ≠ schemas.Null →
  applied username (User.username old) = User.username old
    ∨ username_taken db (applied username (User.username old)) = false →
  let new := User.mk (applied username (User.username old))
                     (applied email (User.email old))
                     (match password with
                      | schemas.Given p => hash pwd_context salt p
                      | _ => User.hashed_password old
                      end) in
  update_user pwd_context db salt user_id
    (schemas.UserUpdate.mk username email password)
  = Ok (Some [("id", PInt user_id); ("username", PStr (User.username new));
              ("email", PStr (User.email new))],
        mkDB (<[user_id := new]> (users db)) (posts db) (comments db)).
Proof.
  intros Hold Hpw Hname new. unfold update_user. found Hold.
  destruct (hash_update_data_applies salt old username email password Hpw)
    as (update_data & -> & Hnew).
  rewrite bind_Ok. cbv beta zeta. rewrite Hnew. fold new.
  assert (commit_user db user_id old new
          = Ok (mkDB (<[user_id := new]> (users db)) (posts db) (comments db))) as ->.
  { destruct Hname; [by apply commit_user_same_name | by apply commit_user_free_name]. }
  rewrite bind_Ok. cbn [users]. rewrite refresh_insert. reflexivity.
Qed.

(** C1 (the code departs from the claim).  On an existing user, a payload
    whose password is explicitly null is not skipped: [update_user] hands the
    null to the hasher before the loop that skips nulls is reached, the
    hasher raises [TypeError], and nothing is returned or stored. *)
Theorem update_user_null_password_raises (db : DB) (salt : string) (user_id : Z)
    (old : User.t) (username email : schemas.field) :
  users db !! user_id = Some old →
  update_user pwd_context db salt user_id
    (schemas.UserUpdate.mk username email schemas.Null) = Raise TypeError.
Proof.
  intros Hold. unfold update_user. found Hold.
  destruct username, email; reflexivity.
Qed.

(** C2.  For a create request whose username is free, [create_user] returns
    the dictionary of the request itself (username, email, password as the
    caller sent them): it holds no [id] and no [hashed_password], although the
    store generated the one and holds the other. *)
Theorem create_user_echoes_request (db : DB) (salt : string)
    (user : schemas.UserCreate.t) :
  username_taken db (schemas.UserCreate.username user) = false →
  ∃ db', create_user pwd_context db salt user
         = Ok (Some (schemas.UserCreate.__dict__ user), db')
    ∧ dict_get "id" (schemas.UserCreate.__dict__ user) = None
    ∧ dict_get "hashed_password" (schemas.UserCreate.__dict__ user) = None
    ∧ users db' !! next_id (users db)
      = Some (User.mk (schemas.UserCreate.username user)
                      (schemas.UserCreate.email user)
                      (hash pwd_context salt (schemas.UserCreate.password user))).
Proof.
  intros Hfree. unfold create_user, hash_password. rewrite bind_Ok. cbv zeta.
  rewrite insert_user_free by done. rewrite bind_Ok. cbn [users].
  rewrite refresh_insert, bind_Ok, project_UserBase, bind_Ok.
  eexists. split; [reflexivity|]. split; [reflexivity|]. split; [reflexivity|].
  cbn [users]. apply lookup_insert_eq.
Qed.

(** C3.  When no row has the given id, each of [update_user], [update_post]
    and [update_comment] returns [None] without raising, whatever the payload,
    and the store is the one it was given. *)
Theorem update_unknown_id_is_absent (db : DB) (salt : string) (id : Z)
    (user : schemas.UserUpdate.t) (post : schemas.PostUpdate.t)
    (comment : schemas.CommentUpdate.t) :
  (users db !! id = None → update_user pwd_context db salt id user = Ok (None, db))
  ∧ (posts db !! id = None → update_post db id post = Ok (None, db))
  ∧ (comments db !! id = None → update_comment db id comment = Ok (None, db)).
Proof.
  unfold update_user, update_post, update_comment.
  rewrite !first_by_id_int.
  repeat split; intros ->; reflexivity.
Qed.

(** C4.  On an existing comment, [update_comment] with the empty string
    returns the projection of the row as it was and leaves the store as it
    was; with a non-empty string it returns the projection with the new
    content, and the store differs only in that row, whose content is the
    new string and whose other columns are the old ones. *)
Theorem update_comment_content (db : DB) (id : Z) (old : Comment.t) :
  comments db !! id = Some old →
  update_comment db id (schemas.CommentUpdate.mk "")
  = Ok (Some [("id", PInt id); ("content", PStr (Comment.content old));
              ("post_id", PInt (Comment.post_id old));
              ("owner_id", PInt (Comment.owner_id old));
              ("created_at", PTime (Comment.created_at old))], db)
  ∧ ∀ s : string, s ≠ "" →
      update_comment db id (schemas.CommentUpdate.mk s)
      = Ok (Some [("id", PInt id); ("content", PStr s);
                  ("post_id", PInt (Comment.post_id old));
                  ("owner_id", PInt (Comment.owner_id old));
                  ("created_at", PTime (Comment.created_at old))],
            mkDB (users db) (posts db)
                 (<[id := Comment.mk (Comment.post_id old) s (Comment.owner_id old)
                                     (Comment.created_at old)]> (comments db))).
Proof.
  intros Hold. split; [|intros s Hs; destruct s as [|a s]; [done|]];
    unfold update_comment; found Hold;
    cbn [schemas.CommentUpdate.content truthy_str]; unfold commit_comment;
    rewrite bind_Ok; cbn [comments];
    rewrite refresh_insert, bind_Ok, project_CommentRead, bind_Ok.
  - rewrite (insert_id _ _ _ Hold). by destruct db.
  - reflexivity.
Qed.

(** C5.  On an existing user, a payload that sets only the email leaves the
    stored username and hashed_password as they were and stores the given
    email (a null email stores nothing); [get_user] on the resulting store
    returns the username the user had before. *)
Theorem update_user_email_only (db : DB) (salt : string) (user_id : Z)
    (old : User.t) (email : schemas.field) :
  users db !! user_id = Some old →
  let new := User.mk (User.username old) (applied email (User.email old))
                     (User.hashed_password old) in
  let db' := mkDB (<[user_id := new]> (users db)) (posts db) (comments db) in
  update_user pwd_context db salt user_id
    (schemas.UserUpdate.mk schemas.Unset email schemas.Unset)
  = Ok (Some [("id", PInt user_id); ("username", PStr (User.username old));
              ("email", PStr (applied email (User.email old)))], db')
  ∧ get_user db' user_id
    = Ok (Some [("id", PInt user_id); ("username", PStr (User.username old));
                ("email", PStr (applied email (User.email old)))]).
Proof.
  intros Hold new db'. split.
  - apply (update_user_applies db salt user_id old schemas.Unset email schemas.Unset);
      [done | done | by left].
  - unfold get_user. rewrite first_by_id_int. subst db'. cbn [users].
    rewrite lookup_insert_eq. reflexivity.
Qed.

(** C6.  [get_posts] pages over the posts of the owner, each of them once and
    no other row, ordered by [created_at] with the newest first: it drops the
    first [skip] of them, keeps at most [limit], and returns the projections
    in that order, or [None] when the page is empty; an owner without posts
    gets [None] and no exception. *)
Theorem get_posts_newest_first (db : DB) (owner_id : Z) (skip limit : nat) :
  ∃ sorted : list (Z * Post.t),
    StronglySorted newest_first sorted
    ∧ NoDup sorted
    ∧ (∀ id p, (id, p) ∈ sorted ↔ posts db !! id = Some p ∧ Post.owner_id p = owner_id)
    ∧ get_posts db owner_id skip limit
      = match take limit (drop skip sorted) with
        | [] => Ok None
        | page => Ok (Some ((λ kp, Post.__dict__ kp.1 kp.2) <$> page))
        end
    ∧ ((∀ id p, posts db !! id = Some p → Post.owner_id p ≠ owner_id) →
       get_posts db owner_id skip limit = Ok None).
Proof.
  exists (owner_posts db owner_id).
  split; [apply owner_posts_sorted|]. split; [apply owner_posts_NoDup|].
  split; [apply elem_of_owner_posts|]. split; [apply get_posts_page|].
  intros Hnone. rewrite get_posts_page.
  assert (owner_posts db owner_id = []) as ->.
  { destruct (owner_posts db owner_id) as [|[id p] l] eqn:E; [reflexivity|].
    assert ((id, p) ∈ owner_posts db owner_id) as Hin by (rewrite E; left).
    apply elem_of_owner_posts in Hin as [Hp Ho].
    exfalso. exact (Hnone _ _ Hp Ho). }
  by rewrite drop_nil, take_nil.
Qed.

(** C7.  [delete_post] on an id without a post returns [false] and leaves the
    store as it was; on an existing post it returns [true], the post is gone,
    the users are untouched, and the comments that remain are exactly those
    whose [post_id] is another post. *)
Theorem delete_post_cascade (db : DB) (id : Z) :
  (posts db !! id = None → delete_post db id = Ok (false, db))
  ∧ (is_Some (posts db !! id) →
     ∃ db', delete_post db id = Ok (true, db')
       ∧ users db' = users db
       ∧ posts db' = delete id (posts db)
       ∧ ∀ cid c, comments db' !! cid = Some c
                  ↔ comments db !! cid = Some c ∧ Comment.post_id c ≠ id).
Proof.
  unfold delete_post. rewrite first_by_id_int. split.
  - by intros ->.
  - intros [p ->]. eexists. split; [reflexivity|].
    split; [reflexivity|]. split; [reflexivity|].
    intros cid c. cbn [comments delete_post_row].
    rewrite map_lookup_filter_Some. simpl. tauto.
Qed.

(** C9.  On a given store [get_comment] has one outcome for all values of
    [comment_id]: its filter compares the key with the builtin [id], never
    with the argument, so no call returns a comment. *)
Theorem get_comment_ignores_comment_id (db : DB) (c1 c2 : Z) :
  get_comment db c1 = get_comment db c2
  ∧ match get_comment db c1 with
    | Ok (Some _) => False
    | _ => True
    end.
Proof.
  unfold get_comment. rewrite first_by_id_builtin, bind_Raise. split; [reflexivity | exact I].
Qed.

(** C10.  [create_comment] never returns [None]: either the store rejects the
    row, or the call returns the projection of the comment it stored under a
    fresh key. *)
Theorem create_comment_never_None (post_id owner_id : Z)
    (comment : schemas.CommentCreate.t) (db : DB) (now : Z) :
  let row := Comment.mk post_id (schemas.CommentCreate.content comment) owner_id now in
  create_comment post_id owner_id comment db now = Raise IntegrityError
  ∨ ∃ id, comments db !! id = None
      ∧ create_comment post_id owner_id comment db now
        = Ok (Some [("id", PInt id);
                    ("content", PStr (schemas.CommentCreate.content comment));
                    ("post_id", PInt post_id); ("owner_id", PInt owner_id);
                    ("created_at", PTime now)],
              mkDB (users db) (posts db) (<[id := row]> (comments db))).
Proof.
  intros row. unfold create_comment, insert_comment. fold row.
  cbn [Comment.post_id Comment.owner_id row].
  destruct (bool_decide _ && bool_decide _); [right | left; reflexivity].
  exists (next_id (comments db)). split; [apply next_id_fresh|].
  rewrite bind_Ok. cbn [comments]. rewrite refresh_insert, bind_Ok.
  cbn [truthy]. rewrite project_CommentRead, bind_Ok. reflexivity.
Qed.

End Properties.

(** ** The statements at the sample stores *)

Lemma update_user_null_password_at_alice :
  users db_alice !! 1 = Some alice_row
  ∧ update_user sample_context db_alice "s2" 1
      (schemas.UserUpdate.mk schemas.Unset schemas.Unset schemas.Null)
    = Raise TypeError.
Proof.
  split; [reflexivity|].
  apply (update_user_null_password_raises sample_context db_alice "s2" 1 alice_row).
  reflexivity.
Defined.

Lemma create_user_echoes_alice :
  username_taken empty_db (schemas.UserCreate.username alice) = false
  ∧ ∃ db', create_user sample_context empty_db "s1" alice
           = Ok (Some (schemas.UserCreate.__dict__ alice), db')
      ∧ dict_get "id" (schemas.UserCreate.__dict__ alice) = None
      ∧ dict_get "hashed_password" (schemas.UserCreate.__dict__ alice) = None
      ∧ users db' !! next_id (users empty_db)
        = Some (User.mk (schemas.UserCreate.username alice)
                        (schemas.UserCreate.email alice)
                        (hash sample_context "s1" (schemas.UserCreate.password alice))).
Proof.
  split; [reflexivity|].
  apply (create_user_echoes_request sample_context empty_db "s1" alice).
  reflexivity.
Defined.

Lemma update_unknown_id_on_empty_store :
  (users empty_db !! 999999 = None
   ∧ update_user sample_context empty_db "s1" 999999
       (schemas.UserUpdate.mk schemas.Unset (schemas.Given "a@b.com") schemas.Null)
     = Ok (None, empty_db))
  ∧ (posts empty_db !! 999999 = None
     ∧ update_post empty_db 999999
         (schemas.PostUpdate.mk (schemas.Given "t") schemas.Unset)
       = Ok (None, empty_db))
  ∧ (comments empty_db !! 999999 = None
     ∧ update_comment empty_db 999999 (schemas.CommentUpdate.mk "edited")
       = Ok (None, empty_db)).
Proof.
  pose proof (update_unknown_id_is_absent sample_context empty_db "s1" 999999
                (schemas.UserUpdate.mk schemas.Unset (schemas.Given "a@b.com") schemas.Null)
                (schemas.PostUpdate.mk (schemas.Given "t") schemas.Unset)
                (schemas.CommentUpdate.mk "edited")) as (Hu & Hp & Hc).
  split; [split; [reflexivity | apply Hu; reflexivity]|].
  split; [split; [reflexivity | apply Hp; reflexivity]|].
  split; [reflexivity | apply Hc; reflexivity].
Defined.

Lemma update_comment_content_at_blog :
  comments db_blog !! 1 = Some (Comment.mk 1 "nice" 1 20)
  ∧ update_comment db_blog 1 (schemas.CommentUpdate.mk "")
    = Ok (Some [("id", PInt 1); ("content", PStr "nice"); ("post_id", PInt 1);
                ("owner_id", PInt 1); ("created_at", PTime 20)], db_blog)
  ∧ "edited" ≠ ""
  ∧ update_comment db_blog 1 (schemas.CommentUpdate.mk "edited")
    = Ok (Some [("id", PInt 1); ("content", PStr "edited"); ("post_id", PInt 1);
                ("owner_id", PInt 1); ("created_at", PTime 20)],
          mkDB (users db_blog) (posts db_blog)
               (<[1 := Comment.mk 1 "edited" 1 20]> (comments db_blog))).
Proof.
  assert (comments db_blog !! 1 = Some (Comment.mk 1 "nice" 1 20)) as Hold
    by reflexivity.
  assert ("edited" ≠ "") as Hne by discriminate.
  destruct (update_comment_content db_blog 1 _ Hold) as [Hempty Hgiven].
  split; [exact Hold|]. split; [exact Hempty|]. split; [exact Hne|].
  exact (Hgiven "edited" Hne).
Defined.

Lemma update_user_email_only_at_alice :
  users db_alice !! 1 = Some alice_row
  ∧ update_user sample_context db_alice "s2" 1
      (schemas.UserUpdate.mk schemas.Unset (schemas.Given "a@b.com") schemas.Unset)
    = Ok (Some [("id", PInt 1); ("username", PStr "alice"); ("email", PStr "a@b.com")],
          mkDB (<[1 := User.mk "alice" "a@b.com" "$s1$secret"]> (users db_alice))
               (posts db_alice) (comments db_alice))
  ∧ get_user (mkDB (<[1 := User.mk "alice" "a@b.com" "$s1$secret"]> (users db_alice))
                   (posts db_alice) (comments db_alice)) 1
    = Ok (Some [("id", PInt 1); ("username", PStr "alice"); ("email", PStr "a@b.com")]).
Proof.
  split; [reflexivity|].
  apply (update_user_email_only sample_context db_alice "s2" 1 alice_row
           (schemas.Given "a@b.com")).
  reflexivity.
Defined.

Lemma get_posts_without_posts :
  (∀ id p, posts db_alice !! id = Some p → Post.owner_id p ≠ 1)
  ∧ get_posts db_alice 1 0 2 = Ok None.
Proof.
  assert (∀ id p, posts db_alice !! id = Some p → Post.owner_id p ≠ 1) as Hnone.
  { intros id p. cbn [posts db_alice]. rewrite lookup_empty. discriminate. }
  split; [exact Hnone|].
  destruct (get_posts_newest_first db_alice 1 0 2) as (sorted & _ & _ & _ & _ & Hzero).
  exact (Hzero Hnone).
Defined.

Lemma delete_post_cascade_at_blog :
  (posts db_blog !! 9 = None ∧ delete_post db_blog 9 = Ok (false, db_blog))
  ∧ is_Some (posts db_blog !! 1)
  ∧ ∃ db', delete_post db_blog 1 = Ok (true, db')
      ∧ users db' = users db_blog
      ∧ posts db' = delete 1 (posts db_blog)
      ∧ ∀ cid c, comments db' !! cid = Some c
                 ↔ comments db_blog !! cid = Some c ∧ Comment.post_id c ≠ 1.
Proof.
  assert (is_Some (posts db_blog !! 1)) as Hsome by (eexists; reflexivity).
  split; [split; [reflexivity | apply (delete_post_cascade db_blog 9); reflexivity]|].
  split; [exact Hsome|].
  exact (proj2 (delete_post_cascade db_blog 1) Hsome).
Defined.

(** The cascade on the sample store: the post and its comment are gone. *)
Example delete_post_at_blog :
  delete_post db_blog 1 = Ok (true, db_alice).
Proof. vm_compute. reflexivity. Qed.

(** * Further properties of the operations *)

(** ** The ordering of comments *)

Global Instance newest_comment_first_total : Total newest_comment_first.
Proof. intros c d. unfold newest_comment_first. lia. Qed.

Global Instance newest_comment_first_trans : Transitive newest_comment_first.
Proof. intros c d e. unfold newest_comment_first. lia. Qed.

Lemma elem_of_post_comments (db : DB) (post_id id : Z) (c : Comment.t) :
  (id, c) ∈ post_comments db post_id
  ↔ comments db !! id = Some c ∧ Comment.post_id c = post_id.
Proof.
  unfold post_comments. rewrite merge_sort_Permutation.
  rewrite list_elem_of_filter, elem_of_map_to_list. simpl. tauto.
Qed.

Lemma post_comments_nil (db : DB) (post_id : Z) :
  (∀ id c, comments db !! id = Some c → Comment.post_id c ≠ post_id) →
  post_comments db post_id = [].
Proof.
  intros Hnone. destruct (post_comments db post_id) as [|[id c] l] eqn:E; [done|].
  assert ((id, c) ∈ post_comments db post_id) as Hin by (rewrite E; left).
  apply elem_of_post_comments in Hin as [Hc Hp]. exfalso. exact (Hnone _ _ Hc Hp).
Qed.

Lemma project_all_CommentRead (rows : list (Z * Comment.t)) :
  project_all schemas.CommentRead Comment.__dict__ rows = Ok (comment_view <$> rows).
Proof.
  induction rows as [|[id c] rows IH]; [reflexivity|].
  cbn [project_all]. rewrite project_CommentRead, bind_Ok, IH. reflexivity.
Qed.

Lemma get_comments_page (db : DB) (post_id : Z) (skip limit : nat) :
  get_comments db post_id skip limit
  = match take limit (drop skip (post_comments db post_id)) with
    | [] => Ok None
    | page => Ok (Some (comment_view <$> page))
    end.
Proof.
  unfold get_comments, select_comments. fold (post_comments db post_id).
  destruct (take limit (drop skip (post_comments db post_id))) as [|kc page];
    [reflexivity|].
  cbv zeta. rewrite project_all_CommentRead. reflexivity.
Qed.

(** ** Lookups by username *)

Lemma first_by_username_Some (table : gmap Z User.t) (name : string) (id : Z) (u : User.t) :
  first_by_username table name = Some (id, u) →
  table !! id = Some u ∧ User.username u = name.
Proof.
  unfold first_by_username. intros H.
  apply head_Some_elem_of in H. apply list_elem_of_filter in H as [Hn Hin].
  apply elem_of_map_to_list in Hin. done.
Qed.

Lemma first_by_username_None (table : gmap Z User.t) (name : string) :
  first_by_username table name = None
  ↔ ∀ id u, table !! id = Some u → User.username u ≠ name.
Proof.
  unfold first_by_username. rewrite head_None. split.
  - intros Hnil id u Hu Hn.
    assert ((id, u) ∈ filter (λ ku, User.username ku.2 = name) (map_to_list table)) as Hin.
    { apply list_elem_of_filter. split; [done | by apply elem_of_map_to_list]. }
    rewrite Hnil in Hin. by apply elem_of_nil in Hin.
  - intros Hnone.
    destruct (filter _ (map_to_list table)) as [|[id u] l] eqn:E; [done|].
    assert ((id, u) ∈ filter (λ ku, User.username ku.2 = name) (map_to_list table)) as Hin
      by (rewrite E; left).
    apply list_elem_of_filter in Hin as [Hn Hin]. apply elem_of_map_to_list in Hin.
    exfalso. exact (Hnone _ _ Hin Hn).
Qed.

Lemma first_by_username_only (table : gmap Z User.t) (name : string) (id : Z) (u : User.t) :
  table !! id = Some u → User.username u = name →
  (∀ id' u', table !! id' = Some u' → User.username u' = name → id' = id) →
  first_by_username table name = Some (id, u).
Proof.
  intros Hu Hn Honly.
  destruct (first_by_username table name) as [[id' u']|] eqn:E.
  - apply first_by_username_Some in E as [Hu' Hn'].
    assert (id' = id) as -> by eauto. congruence.
  - exfalso. exact (proj1 (first_by_username_None _ _) E _ _ Hu Hn).
Qed.

Lemma username_taken_false (db : DB) (name : string) :
  username_taken db name = false
  ↔ ∀ id u, users db !! id = Some u → User.username u ≠ name.
Proof.
  unfold username_taken. rewrite bool_decide_eq_false, map_Exists_lookup. split.
  - intros Hno id u Hu Hn. apply Hno. eauto.
  - intros Hno (id & u & Hu & Hn). exact (Hno _ _ Hu Hn).
Qed.

(** ** Units of work on posts and users *)

Lemma insert_post_owner (db : DB) (new : Post.t) :
  is_Some (users db !! Post.owner_id new) →
  insert_post db new
  = Ok (next_id (posts db),
        mkDB (users db) (<[next_id (posts db) := new]> (posts db)) (comments db)).
Proof. intros H. unfold insert_post. by rewrite bool_decide_eq_true_2. Qed.

Lemma insert_post_no_owner (db : DB) (new : Post.t) :
  users db !! Post.owner_id new = None → insert_post db new = Raise IntegrityError.
Proof.
  intros H. unfold insert_post. rewrite bool_decide_eq_false_2; [done|].
  rewrite H. by intros [? ?].
Qed.

Lemma apply_updates_post (old : Post.t) (title content : schemas.field) :
  apply_updates Post.setattr old
    (schemas.PostUpdate.dict (schemas.PostUpdate.mk title content))
  = Post.mk (applied title (Post.title old)) (applied content (Post.content old))
            (Post.owner_id old) (Post.created_at old).
Proof. destruct old, title, content; reflexivity. Qed.

Lemma delete_user_row_free (db : DB) (id : Z) :
  (∀ pid p, posts db !! pid = Some p → Post.owner_id p ≠ id) →
  (∀ cid c, comments db !! cid = Some c → Comment.owner_id c ≠ id) →
  delete_user_row db id = Ok (mkDB (delete id (users db)) (posts db) (comments db)).
Proof.
  intros Hp Hc. unfold delete_user_row.
  rewrite !bool_decide_eq_false_2; [done | |].
  - intros (cid & c & Hl & Ho). exact (Hc _ _ Hl Ho).
  - intros (pid & p & Hl & Ho). exact (Hp _ _ Hl Ho).
Qed.

Lemma delete_user_row_owned (db : DB) (id : Z) :
  (∃ pid p, posts db !! pid = Some p ∧ Post.owner_id p = id)
  ∨ (∃ cid c, comments db !! cid = Some c ∧ Comment.owner_id c = id) →
  delete_user_row db id = Raise IntegrityError.
Proof.
  intros H. unfold delete_user_row.
  destruct H as [H | H].
  - by rewrite (bool_decide_eq_true_2 _ H).
  - rewrite (bool_decide_eq_true_2 (map_Exists _ (comments db)) H).
    by rewrite orb_true_r.
Qed.

(** ** Dictionaries *)

Lemma dict_get_del_eq (k : string) (d : pydict) : dict_get k (dict_del k d) = None.
Proof.
  induction d as [|[k' v] d IH]; [reflexivity|]. cbn [dict_del].
  destruct (String.eqb_spec k k') as [->|Hne]; [done|].
  cbn [dict_get]. by rewrite (proj2 (String.eqb_neq _ _) Hne).
Qed.

Lemma dict_get_del_ne (k k' : string) (d : pydict) :
  k ≠ k' → dict_get k (dict_del k' d) = dict_get k d.
Proof.
  intros Hne. induction d as [|[k'' v] d IH]; [reflexivity|]. cbn [dict_del dict_get].
  destruct (String.eqb_spec k' k'') as [<-|Hne'].
  - by rewrite (proj2 (String.eqb_neq _ _) Hne).
  - cbn [dict_get]. by rewrite IH.
Qed.

Lemma dict_get_set_eq (k : string) (v : pyval) (d : pydict) :
  dict_get k (dict_set k v d) = Some v.
Proof.
  induction d as [|[k' v'] d IH]; cbn [dict_set dict_get].
  - by rewrite String.eqb_refl.
  - destruct (String.eqb_spec k k') as [<-|Hne]; cbn [dict_get].
    + by rewrite String.eqb_refl.
    + by rewrite (proj2 (String.eqb_neq _ _) Hne).
Qed.

Lemma update_post_store (db : DB) (id : Z) (old : Post.t)
    (title content : schemas.field) :
  posts db !! id = Some old →
  update_post db id (schemas.PostUpdate.mk title content)
  = Ok (Some (Post.__dict__ id
                (Post.mk (applied title (Post.title old))
                         (applied content (Post.content old))
                         (Post.owner_id old) (Post.created_at old))),
        mkDB (users db)
             (<[id := Post.mk (applied title (Post.title old))
                              (applied content (Post.content old))
                              (Post.owner_id old) (Post.created_at old)]> (posts db))
             (comments db)).
Proof.
  intros Hold. unfold update_post. found Hold.
  rewrite apply_updates_post. unfold commit_post.
  rewrite bind_Ok. cbn [posts].
  rewrite refresh_insert, bind_Ok, project_PostRead, bind_Ok. reflexivity.
Qed.

Section MoreProperties.
Variable pwd_context : CryptContext.

(** X1.  [create_post] is rejected by the store when the owner does not
    exist; otherwise it stores the post under a key no post had, leaves every
    other row as it was, and returns the projection of the stored row, with
    that key and the clock reading as [created_at]. *)
Theorem create_post_adds_one (db : DB) (now : Z) (post : schemas.PostCreate.t) :
  let row := Post.mk (schemas.PostCreate.title post) (schemas.PostCreate.content post)
                     (schemas.PostCreate.owner_id post) now in
  (users db !! schemas.PostCreate.owner_id post = None →
   create_post db now post = Raise IntegrityError)
  ∧ (is_Some (users db !! schemas.PostCreate.owner_id post) →
     ∃ id, posts db !! id = None
       ∧ create_post db now post
         = Ok (Post.__dict__ id row,
               mkDB (users db) (<[id := row]> (posts db)) (comments db))).
Proof.
  intros row. unfold create_post. fold row. split.
  - intros Hno. by rewrite insert_post_no_owner.
  - intros Hown. exists (next_id (posts db)). split; [apply next_id_fresh|].
    rewrite insert_post_owner by done. rewrite bind_Ok. cbn [posts].
    rewrite refresh_insert, bind_Ok, project_PostRead, bind_Ok. reflexivity.
Qed.

(** X2.  The projection that [create_post] returns carries the new key; the
    store it was given had no post under that key, and [get_post] on the
    resulting store returns the same projection for it. *)
Theorem get_post_after_create (db db' : DB) (now : Z) (post : schemas.PostCreate.t)
    (p : pydict) :
  create_post db now post = Ok (p, db') →
  ∃ id, dict_get "id" p = Some (PInt id)
    ∧ get_post db id = Ok None
    ∧ get_post db' id = Ok (Some p).
Proof.
  intros Hcreate.
  destruct (users db !! schemas.PostCreate.owner_id post) as [u|] eqn:Hown.
  - unfold create_post in Hcreate.
    rewrite insert_post_owner in Hcreate by (cbn; eauto).
    rewrite bind_Ok in Hcreate. cbn [posts] in Hcreate.
    rewrite refresh_insert, bind_Ok, project_PostRead, bind_Ok in Hcreate.
    injection Hcreate as <- <-.
    exists (next_id (posts db)). split; [reflexivity|].
    unfold get_post. rewrite !first_by_id_int. cbn [posts].
    rewrite next_id_fresh, lookup_insert_eq. split; reflexivity.
  - unfold create_post in Hcreate.
    rewrite insert_post_no_owner in Hcreate by done. discriminate.
Qed.

(** X3.  On an existing post [update_post] never raises, whatever the
    payload: a given title or content replaces the stored one, an unset or
    null field is skipped, [owner_id] and [created_at] stay, and no other row
    changes. *)
Theorem update_post_applies (db : DB) (id : Z) (old : Post.t)
    (title content : schemas.field) :
  posts db !! id = Some old →
  let new := Post.mk (applied title (Post.title old))
                     (applied content (Post.content old))
                     (Post.owner_id old) (Post.created_at old) in
  update_post db id (schemas.PostUpdate.mk title content)
  = Ok (Some (Post.__dict__ id new),
        mkDB (users db) (<[id := new]> (posts db)) (comments db)).
Proof.
  intros Hold new. by apply update_post_store.
Qed.

(** X4.  On an existing user, a payload that sets username and email to
    null and leaves the password unset changes nothing: [update_user] returns
    the projection of the row as it was and the store it was given. *)
Theorem update_user_nulls_skipped (db : DB) (salt : string) (user_id : Z)
    (old : User.t) :
  users db !! user_id = Some old →
  update_user pwd_context db salt user_id
    (schemas.UserUpdate.mk schemas.Null schemas.Null schemas.Unset)
  = Ok (Some [("id", PInt user_id); ("username", PStr (User.username old));
              ("email", PStr (User.email old))], db).
Proof.
  intros Hold.
  rewrite (update_user_applies pwd_context db salt user_id old
             schemas.Null schemas.Null schemas.Unset Hold); [|done|by left].
  cbn [applied User.username User.email]. destruct old, db.
  cbn [users] in Hold. cbn. by rewrite (insert_id _ _ _ Hold).
Qed.

(** X5.  On an existing user, a payload with a password (and no username)
    stores the digest of that password under [hashed_password]; the username
    is the old one, and the returned projection holds neither the password
    nor its digest. *)
Theorem update_user_password_hashed (db : DB) (salt : string) (user_id : Z)
    (old : User.t) (email : schemas.field) (password : string) :
  users db !! user_id = Some old →
  let new := User.mk (User.username old) (applied email (User.email old))
                     (hash pwd_context salt password) in
  update_user pwd_context db salt user_id
    (schemas.UserUpdate.mk schemas.Unset email (schemas.Given password))
  = Ok (Some [("id", PInt user_id); ("username", PStr (User.username old));
              ("email", PStr (applied email (User.email old)))],
        mkDB (<[user_id := new]> (users db)) (posts db) (comments db)).
Proof.
  intros Hold new.
  apply (update_user_applies pwd_context db salt user_id old
           schemas.Unset email (schemas.Given password)); [done | done | by left].
Qed.

(** X6.  [delete_user] returns [false] and leaves the store as it was when
    the id is unknown; it is rejected by the store when a post or a comment
    still has the user as owner (nothing cascades from a user); otherwise it
    returns [true] and removes that user row only. *)
Theorem delete_user_restricted (db : DB) (user_id : Z) :
  (users db !! user_id = None → delete_user db user_id = Ok (false, db))
  ∧ (is_Some (users db !! user_id) →
     (∃ pid p, posts db !! pid = Some p ∧ Post.owner_id p = user_id)
     ∨ (∃ cid c, comments db !! cid = Some c ∧ Comment.owner_id c = user_id) →
     delete_user db user_id = Raise IntegrityError)
  ∧ (is_Some (users db !! user_id) →
     (∀ pid p, posts db !! pid = Some p → Post.owner_id p ≠ user_id) →
     (∀ cid c, comments db !! cid = Some c → Comment.owner_id c ≠ user_id) →
     delete_user db user_id
     = Ok (true, mkDB (delete user_id (users db)) (posts db) (comments db))).
Proof.
  unfold delete_user. rewrite first_by_id_int. split; [by intros ->|].
  split.
  - intros [u ->] Howned. cbn [fmap option_fmap option_map].
    rewrite bind_Ok. cbv beta iota. by rewrite delete_user_row_owned.
  - intros [u ->] Hp Hc. cbn [fmap option_fmap option_map].
    rewrite bind_Ok. cbv beta iota. by rewrite delete_user_row_free.
Qed.

(** X7.  [delete_comment] on an existing comment returns [true] and removes
    that row only; on the resulting store the same id is unknown: a second
    [delete_comment] returns [false], and [update_comment] returns [None]. *)
Theorem delete_comment_then_absent (db : DB) (id : Z) (c : Comment.t)
    (comment : schemas.CommentUpdate.t) :
  comments db !! id = Some c →
  let db' := mkDB (users db) (posts db) (delete id (comments db)) in
  delete_comment db id = Ok (true, db')
  ∧ delete_comment db' id = Ok (false, db')
  ∧ update_comment db' id comment = Ok (None, db').
Proof.
  intros Hc db'. unfold delete_comment, update_comment.
  rewrite !first_by_id_int, Hc. subst db'. cbn [comments].
  rewrite lookup_delete_eq. repeat split.
Qed.

(** X8.  [get_comments] pages over the comments of the post, each of them
    once and no other row, ordered by [created_at] with the newest first: it
    drops the first [skip], keeps at most [limit], and returns their
    projections in that order, or [None] when the page is empty. *)
Theorem get_comments_newest_first (db : DB) (post_id : Z) (skip limit : nat) :
  ∃ sorted : list (Z * Comment.t),
    StronglySorted newest_comment_first sorted
    ∧ NoDup sorted
    ∧ (∀ id c, (id, c) ∈ sorted
               ↔ comments db !! id = Some c ∧ Comment.post_id c = post_id)
    ∧ get_comments db post_id skip limit
      = match take limit (drop skip sorted) with
        | [] => Ok None
        | page => Ok (Some (comment_view <$> page))
        end.
Proof.
  exists (post_comments db post_id).
  split; [apply StronglySorted_merge_sort; apply _|].
  split.
  { unfold post_comments. rewrite merge_sort_Permutation.
    apply NoDup_filter, NoDup_map_to_list. }
  split; [apply elem_of_post_comments | apply get_comments_page].
Qed.


(** ** Referential integrity *)

Lemma references_ok_more_users (db : DB) (users' : gmap Z User.t) :
  references_ok db →
  (∀ k, is_Some (users db !! k) → is_Some (users' !! k)) →
  references_ok (mkDB users' (posts db) (comments db)).
Proof.
  intros [Hp Hc] Hmore. split; cbn [users posts comments].
  - intros id p Hl. apply Hmore. eauto.
  - intros id c Hl. destruct (Hc _ _ Hl). split; [done | by apply Hmore].
Qed.

Lemma create_user_keeps_references (db db' : DB) (salt : string)
    (user : schemas.UserCreate.t) (r : option pydict) :
  references_ok db → create_user pwd_context db salt user = Ok (r, db') →
  references_ok db'.
Proof.
  intros Hok. unfold create_user, hash_password, insert_user.
  rewrite bind_Ok. cbv zeta.
  destruct (username_taken db _); [discriminate|].
  rewrite bind_Ok. cbn [users]. rewrite refresh_insert, bind_Ok, project_UserBase, bind_Ok.
  intros [= _ <-]. apply references_ok_more_users; [done|].
  intros k Hk. rewrite lookup_insert_is_Some. destruct (decide (next_id (users db) = k)); auto.
Qed.

Lemma update_user_keeps_references (db db' : DB) (salt : string) (user_id : Z)
    (user : schemas.UserUpdate.t) (r : option pydict) :
  references_ok db → update_user pwd_context db salt user_id user = Ok (r, db') →
  references_ok db'.
Proof.
  intros Hok. unfold update_user. rewrite first_by_id_int.
  destruct (users db !! user_id) as [old|] eqn:Hold; cbn [fmap option_fmap option_map];
    rewrite bind_Ok; cbv beta iota; [|by intros [= _ <-]].
  destruct (hash_update_data pwd_context salt _) as [update_data|]; [|discriminate].
  rewrite bind_Ok. cbv beta zeta. unfold commit_user.
  destruct (_ && _); [discriminate|].
  rewrite bind_Ok. cbn [users]. rewrite refresh_insert, bind_Ok, project_User, bind_Ok.
  intros [= _ <-]. apply references_ok_more_users; [done|].
  intros k Hk. rewrite lookup_insert_is_Some. destruct (decide (user_id = k)); auto.
Qed.

Lemma delete_user_keeps_references (db db' : DB) (user_id : Z) (r : bool) :
  references_ok db → delete_user db user_id = Ok (r, db') → references_ok db'.
Proof.
  intros [Hp Hc]. unfold delete_user. rewrite first_by_id_int.
  destruct (users db !! user_id) as [old|] eqn:Hold; cbn [fmap option_fmap option_map];
    rewrite bind_Ok; cbv beta iota; [|by intros [= _ <-]].
  unfold delete_user_row.
  destruct (bool_decide (map_Exists _ (posts db))) eqn:Eposts; [discriminate|].
  destruct (bool_decide (map_Exists _ (comments db))) eqn:Ecomments; [discriminate|].
  cbn [orb]. rewrite bind_Ok. intros [= _ <-].
  apply bool_decide_eq_false in Eposts, Ecomments.
  split; cbn [users posts comments].
  - intros id p Hl. rewrite lookup_delete_ne; [by eapply Hp|].
    intros E. apply Eposts. by exists id, p.
  - intros id c Hl. destruct (Hc _ _ Hl). split; [done|].
    rewrite lookup_delete_ne; [done|].
    intros E. apply Ecomments. by exists id, c.
Qed.

Lemma create_post_keeps_references (db db' : DB) (now : Z)
    (post : schemas.PostCreate.t) (r : pydict) :
  references_ok db → create_post db now post = Ok (r, db') → references_ok db'.
Proof.
  intros [Hp Hc]. unfold create_post, insert_post. cbn [Post.owner_id].
  destruct (bool_decide _) eqn:Eown; [|discriminate].
  apply bool_decide_eq_true in Eown.
  rewrite bind_Ok. cbn [posts]. rewrite refresh_insert, bind_Ok, project_PostRead, bind_Ok.
  intros [= _ <-]. split; cbn [users posts comments].
  - intros id p. rewrite lookup_insert_Some. intros [[_ <-] | [_ Hl]]; [done | by eapply Hp].
  - intros id c Hl. destruct (Hc _ _ Hl) as [Hpost Huser]. split; [|done].
    rewrite lookup_insert_is_Some.
    destruct (decide (next_id (posts db) = Comment.post_id c)); auto.
Qed.

Lemma update_post_keeps_references (db db' : DB) (id : Z)
    (post : schemas.PostUpdate.t) (r : option pydict) :
  references_ok db → update_post db id post = Ok (r, db') → references_ok db'.
Proof.
  intros [Hp Hc]. destruct post as [title content].
  destruct (posts db !! id) as [old|] eqn:Hold.
  - rewrite (update_post_store db id old title content Hold).
    intros [= _ <-]. split; cbn [users posts comments].
    + intros id' p. rewrite lookup_insert_Some.
      intros [[_ <-] | [_ Hl]]; [cbn [Post.owner_id]; eauto | eauto].
    + intros id' c Hl. destruct (Hc _ _ Hl) as [Hpost Huser]. split; [|done].
      rewrite lookup_insert_is_Some. destruct (decide (id = Comment.post_id c)); auto.
  - unfold update_post. rewrite first_by_id_int, Hold. by intros [= _ <-].
Qed.

Lemma delete_post_keeps_references (db db' : DB) (id : Z) (r : bool) :
  references_ok db → delete_post db id = Ok (r, db') → references_ok db'.
Proof.
  intros [Hp Hc]. unfold delete_post. rewrite first_by_id_int.
  destruct (posts db !! id) as [old|] eqn:Hold; cbn [fmap option_fmap option_map];
    rewrite bind_Ok; cbv beta iota; intros [= _ <-]; [|done].
  split; cbn [users posts comments delete_post_row].
  - intros id' p. rewrite lookup_delete_Some. intros [_ Hl]. by eapply Hp.
  - intros id' c. rewrite map_lookup_filter_Some. cbn [snd].
    intros [Hl Hne]. destruct (Hc _ _ Hl) as [Hpost Huser]. split; [|done].
    rewrite lookup_delete_ne; [done | congruence].
Qed.

Lemma create_comment_keeps_references (db db' : DB) (post_id owner_id now : Z)
    (comment : schemas.CommentCreate.t) (r : option pydict) :
  references_ok db → create_comment post_id owner_id comment db now = Ok (r, db') →
  references_ok db'.
Proof.
  intros [Hp Hc]. unfold create_comment, insert_comment.
  cbn [Comment.post_id Comment.owner_id].
  destruct (bool_decide (is_Some (posts db !! post_id))) eqn:Epost; [|discriminate].
  destruct (bool_decide (is_Some (users db !! owner_id))) eqn:Euser; [|discriminate].
  apply bool_decide_eq_true in Epost, Euser.
  cbn [andb]. rewrite bind_Ok. cbn [comments].
  rewrite refresh_insert, bind_Ok. cbn [truthy].
  rewrite project_CommentRead, bind_Ok.
  intros [= _ <-]. split; cbn [users posts comments]; [done|].
  intros id c. rewrite lookup_insert_Some. intros [[_ <-] | [_ Hl]]; [done | by eapply Hc].
Qed.

Lemma update_comment_keeps_references (db db' : DB) (id : Z)
    (comment : schemas.CommentUpdate.t) (r : option pydict) :
  references_ok db → update_comment db id comment = Ok (r, db') → references_ok db'.
Proof.
  intros [Hp Hc]. unfold update_comment. rewrite first_by_id_int.
  destruct (comments db !! id) as [old|] eqn:Hold; cbn [fmap option_fmap option_map];
    rewrite bind_Ok; cbv beta iota zeta; [|by intros [= _ <-]].
  unfold commit_comment. rewrite bind_Ok. cbn [comments].
  rewrite refresh_insert, bind_Ok, project_CommentRead, bind_Ok.
  intros [= _ <-]. split; cbn [users posts comments]; [done|].
  intros id' c. rewrite lookup_insert_Some. intros [[_ <-] | [_ Hl]]; [|by eapply Hc].
  destruct (Hc _ _ Hold). by destruct (truthy_str _).
Qed.

Lemma delete_comment_keeps_references (db db' : DB) (id : Z) (r : bool) :
  references_ok db → delete_comment db id = Ok (r, db') → references_ok db'.
Proof.
  intros [Hp Hc]. unfold delete_comment. rewrite first_by_id_int.
  destruct (comments db !! id) as [old|] eqn:Hold; cbn [fmap option_fmap option_map];
    rewrite bind_Ok; cbv beta iota; intros [= _ <-]; [|done].
  split; cbn [users posts comments delete_comment_row]; [done|].
  intros id' c. rewrite lookup_delete_Some. intros [_ Hl]. by eapply Hc.
Qed.


Lemma store_after_keeps_references (db : DB) (c : call) :
  references_ok db → references_ok (store_after pwd_context db c).
Proof.
  intros Hok. destruct c; cbn [store_after].
  - destruct (create_user _ _ _ _) as [[r db']|] eqn:E; [|done].
    by eapply create_user_keeps_references.
  - destruct (update_user _ _ _ _ _) as [[r db']|] eqn:E; [|done].
    by eapply update_user_keeps_references.
  - destruct (delete_user _ _) as [[r db']|] eqn:E; [|done].
    by eapply delete_user_keeps_references.
  - destruct (create_post _ _ _) as [[r db']|] eqn:E; [|done].
    by eapply create_post_keeps_references.
  - destruct (update_post _ _ _) as [[r db']|] eqn:E; [|done].
    by eapply update_post_keeps_references.
  - destruct (delete_post _ _) as [[r db']|] eqn:E; [|done].
    by eapply delete_post_keeps_references.
  - destruct (create_comment _ _ _ _ _) as [[r db']|] eqn:E; [|done].
    by eapply create_comment_keeps_references.
  - destruct (update_comment _ _ _) as [[r db']|] eqn:E; [|done].
    by eapply update_comment_keeps_references.
  - destruct (delete_comment _ _) as [[r db']|] eqn:E; [|done].
    by eapply delete_comment_keeps_references.
Qed.

(** X9.  Referential integrity is kept by every sequence of writing
    operations: if every post has an existing owner and every comment an
    existing post and owner, the same holds after any calls of the create,
    update and delete operations, whether they succeed or raise. *)
Theorem calls_keep_references (db : DB) (cs : list call) :
  references_ok db → references_ok (fold_left (store_after pwd_context) cs db).
Proof.
  revert db. induction cs as [|c cs IH]; intros db Hok; [done|].
  cbn [fold_left]. apply IH. by apply store_after_keeps_references.
Qed.

(** X10.  [get_posts] returns [None], as for an owner without posts, when
    [limit] is zero or [skip] is not less than the number of posts of the
    owner. *)
Theorem get_posts_empty_page (db : DB) (owner_id : Z) (skip limit : nat) :
  limit = 0%nat ∨ (length (owner_posts db owner_id) ≤ skip)%nat →
  get_posts db owner_id skip limit = Ok None.
Proof.
  intros H. rewrite get_posts_page. destruct H as [-> | H].
  - by rewrite take_0.
  - by rewrite drop_ge, take_nil.
Qed.

(** X11.  When [get_posts] returns a list it is not empty, has at most
    [limit] entries, and each entry has the requested [owner_id]. *)
Theorem get_posts_some (db : DB) (owner_id : Z) (skip limit : nat)
    (ps : list pydict) :
  get_posts db owner_id skip limit = Ok (Some ps) →
  ps ≠ []
  ∧ (length ps ≤ limit)%nat
  ∧ Forall (λ p, dict_get "owner_id" p = Some (PInt owner_id)) ps.
Proof.
  rewrite get_posts_page.
  destruct (take limit (drop skip (owner_posts db owner_id))) as [|kp page] eqn:E;
    [discriminate|].
  intros H.
  assert (ps = (λ kp, Post.__dict__ kp.1 kp.2) <$> (kp :: page)) as -> by congruence.
  clear H. split; [done|]. split.
  - rewrite length_fmap, <-E, length_take. lia.
  - rewrite Forall_fmap, Forall_forall. intros [id p] Hin. cbn.
    assert ((id, p) ∈ owner_posts db owner_id) as Hall.
    { apply (subseteq_drop skip), (subseteq_take limit). by rewrite E. }
    apply elem_of_owner_posts in Hall as [_ ->]. reflexivity.
Qed.

(** X12.  After [delete_post] removed a post, the post and its comments are
    unknown to the other operations: [get_post] returns [None], a second
    [delete_post] returns [false], [get_comments] for that post returns
    [None] for every page, and [update_comment] and [delete_comment] report
    every comment it had as absent. *)
Theorem deleted_post_has_no_comments (db : DB) (id : Z) (p : Post.t) :
  posts db !! id = Some p →
  ∃ db', delete_post db id = Ok (true, db')
    ∧ get_post db' id = Ok None
    ∧ delete_post db' id = Ok (false, db')
    ∧ (∀ skip limit, get_comments db' id skip limit = Ok None)
    ∧ (∀ cid c comment, comments db !! cid = Some c → Comment.post_id c = id →
         update_comment db' cid comment = Ok (None, db')
         ∧ delete_comment db' cid = Ok (false, db')).
Proof.
  intros Hp. exists (delete_post_row db id).
  assert (∀ cid c, comments (delete_post_row db id) !! cid = Some c →
            Comment.post_id c ≠ id) as Hgone.
  { intros cid c. cbn [comments delete_post_row].
    rewrite map_lookup_filter_Some. cbn [snd]. tauto. }
  split; [unfold delete_post; by rewrite first_by_id_int, Hp|].
  split.
  { unfold get_post. rewrite first_by_id_int. cbn [posts delete_post_row].
    by rewrite lookup_delete_eq. }
  split.
  { unfold delete_post. rewrite first_by_id_int. cbn [posts delete_post_row].
    by rewrite lookup_delete_eq. }
  split.
  { intros skip limit. rewrite get_comments_page, post_comments_nil by done.
    by rewrite drop_nil, take_nil. }
  intros cid c comment Hc Hpost.
  assert (comments (delete_post_row db id) !! cid = None) as Hcid.
  { destruct (comments (delete_post_row db id) !! cid) as [c'|] eqn:E; [|done].
    pose proof (Hgone _ _ E) as Hne. revert E. cbn [comments delete_post_row].
    rewrite map_lookup_filter_Some. intros [E _]. congruence. }
  unfold update_comment, delete_comment. rewrite !first_by_id_int, Hcid. done.
Qed.

(** X13.  A user that [create_user] stored is found again: the store had no
    user under the generated key before, [get_user] returns its id, username
    and email afterwards, [get_user_by_username] returns the same projection,
    and [get_full_user_by_username] returns it with the digest of the
    password as [hashed_password]. *)
Theorem created_user_is_found (db : DB) (salt : string) (user : schemas.UserCreate.t) :
  username_taken db (schemas.UserCreate.username user) = false →
  ∃ id r db',
    create_user pwd_context db salt user = Ok (r, db')
    ∧ get_user db id = Ok None
    ∧ get_user db' id
      = Ok (Some [("id", PInt id);
                  ("username", PStr (schemas.UserCreate.username user));
                  ("email", PStr (schemas.UserCreate.email user))])
    ∧ get_user_by_username db' (schemas.UserCreate.username user) = get_user db' id
    ∧ get_full_user_by_username db' (schemas.UserCreate.username user)
      = Ok (Some [("id", PInt id);
                  ("username", PStr (schemas.UserCreate.username user));
                  ("email", PStr (schemas.UserCreate.email user));
                  ("hashed_password",
                   PStr (hash pwd_context salt (schemas.UserCreate.password user)))]).
Proof.
  intros Hfree.
  set (row := User.mk (schemas.UserCreate.username user) (schemas.UserCreate.email user)
                      (hash pwd_context salt (schemas.UserCreate.password user))).
  set (db' := mkDB (<[next_id (users db) := row]> (users db)) (posts db) (comments db)).
  assert (first_by_username (users db') (schemas.UserCreate.username user)
          = Some (next_id (users db), row)) as Hfirst.
  { apply first_by_username_only; cbn [users db'].
    - apply lookup_insert_eq.
    - reflexivity.
    - intros id' u'. rewrite lookup_insert_Some. intros [[<- _] | [_ Hu']] Hn; [done|].
      exfalso. exact (proj1 (username_taken_false _ _) Hfree _ _ Hu' Hn). }
  exists (next_id (users db)), (Some (schemas.UserCreate.__dict__ user)), db'.
  split.
  { unfold create_user, hash_password. rewrite bind_Ok. cbv zeta.
    rewrite insert_user_free by done. rewrite bind_Ok. cbn [users].
    rewrite refresh_insert, bind_Ok, project_UserBase, bind_Ok. reflexivity. }
  split; [unfold get_user; by rewrite first_by_id_int, next_id_fresh|].
  assert (get_user db' (next_id (users db))
          = Ok (Some [("id", PInt (next_id (users db)));
                      ("username", PStr (schemas.UserCreate.username user));
                      ("email", PStr (schemas.UserCreate.email user))])) as Hget.
  { unfold get_user. rewrite first_by_id_int. cbn [users db'].
    by rewrite lookup_insert_eq. }
  split; [exact Hget|]. split.
  - rewrite Hget. unfold get_user_by_username. by rewrite Hfirst.
  - unfold get_full_user_by_username. by rewrite Hfirst.
Qed.

(** X14.  The two lookups by username return [None] when no user has the
    name.  When some user has it, both return the projection of one such
    user, the same for both: the public one holds id, username and email,
    the full one also the stored [hashed_password]. *)
Theorem get_user_by_username_finds (db : DB) (username : string) :
  ((∀ id u, users db !! id = Some u → User.username u ≠ username) →
   get_user_by_username db username = Ok None
   ∧ get_full_user_by_username db username = Ok None)
  ∧ ((∃ id u, users db !! id = Some u ∧ User.username u = username) →
     ∃ id u, users db !! id = Some u
       ∧ get_user_by_username db username
         = Ok (Some [("id", PInt id); ("username", PStr username);
                     ("email", PStr (User.email u))])
       ∧ get_full_user_by_username db username
         = Ok (Some [("id", PInt id); ("username", PStr username);
                     ("email", PStr (User.email u));
                     ("hashed_password", PStr (User.hashed_password u))])).
Proof.
  unfold get_user_by_username, get_full_user_by_username. split.
  - intros Hnone. apply first_by_username_None in Hnone. by rewrite Hnone.
  - intros (id0 & u0 & Hu0 & Hn0).
    destruct (first_by_username (users db) username) as [[id u]|] eqn:E.
    + apply first_by_username_Some in E as [Hu <-]. exists id, u. done.
    + exfalso. exact (proj1 (first_by_username_None _ _) E _ _ Hu0 Hn0).
Qed.

(** X15.  [create_comment] is rejected by the store exactly when the post
    or the owner it names does not exist. *)
Theorem create_comment_needs_post_and_owner (post_id owner_id : Z)
    (comment : schemas.CommentCreate.t) (db : DB) (now : Z) :
  create_comment post_id owner_id comment db now = Raise IntegrityError
  ↔ posts db !! post_id = None ∨ users db !! owner_id = None.
Proof.
  unfold create_comment, insert_comment. cbn [Comment.post_id Comment.owner_id].
  destruct (posts db !! post_id) as [p|] eqn:Hp.
  - destruct (users db !! owner_id) as [u|] eqn:Hu.
    + rewrite !bool_decide_eq_true_2 by eauto. cbn [andb].
      rewrite bind_Ok. cbn [comments]. rewrite refresh_insert, bind_Ok. cbn [truthy].
      rewrite project_CommentRead, bind_Ok. split; [discriminate | by intros [|]].
    + rewrite (bool_decide_eq_false_2 (is_Some None)) by (by intros [? ?]).
      rewrite andb_false_r. split; auto.
  - rewrite (bool_decide_eq_false_2 (is_Some None)) by (by intros [? ?]).
    cbn [andb]. split; auto.
Qed.


(** X16.  The password block of [update_user]: a payload without the key
    [password] passes unchanged; a string under that key is replaced by its
    digest under [hashed_password], and the key [password] is gone; any other
    value under the key makes the block raise [TypeError]. *)
Theorem hash_update_data_drops_password (salt : string) (update_data : pydict) :
  (dict_get "password" update_data = None →
   hash_update_data pwd_context salt update_data = Ok update_data)
  ∧ (∀ p, dict_get "password" update_data = Some (PStr p) →
       ∃ d, hash_update_data pwd_context salt update_data = Ok d
         ∧ dict_get "password" d = None
         ∧ dict_get "hashed_password" d = Some (PStr (hash pwd_context salt p)))
  ∧ (∀ v, dict_get "password" update_data = Some v → (∀ p, v ≠ PStr p) →
       hash_update_data pwd_context salt update_data = Raise TypeError).
Proof.
  unfold hash_update_data. split; [by intros ->|]. split.
  - intros p ->. eexists. split; [reflexivity|].
    split; [apply dict_get_del_eq|].
    rewrite dict_get_del_ne by done. apply dict_get_set_eq.
  - intros v -> Hv. destruct v; try reflexivity. by destruct (Hv s).
Qed.

(** X17.  A comment that [create_comment] stored is listed: [get_comments]
    for its post, from the first row and with a limit that covers all
    comments of the post, returns a list that holds the projection
    [create_comment] returned. *)
Theorem created_comment_is_listed (post_id owner_id : Z)
    (comment : schemas.CommentCreate.t) (db db' : DB) (now : Z) (p : pydict)
    (limit : nat) :
  create_comment post_id owner_id comment db now = Ok (Some p, db') →
  (length (post_comments db' post_id) ≤ limit)%nat →
  ∃ ps, get_comments db' post_id 0 limit = Ok (Some ps) ∧ p ∈ ps.
Proof.
  unfold create_comment, insert_comment.
  destruct (_ && _); [|discriminate].
  rewrite bind_Ok. cbn [comments]. rewrite refresh_insert, bind_Ok. cbn [truthy].
  rewrite project_CommentRead, bind_Ok.
  set (row := Comment.mk post_id (schemas.CommentCreate.content comment) owner_id now).
  set (id := next_id (comments db)).
  intros [= <- <-] Hlimit.
  assert ((id, row) ∈ post_comments
            (mkDB (users db) (posts db) (<[id := row]> (comments db))) post_id) as Hin.
  { apply elem_of_post_comments. cbn [comments]. by rewrite lookup_insert_eq. }
  rewrite get_comments_page, drop_0, take_ge by done.
  destruct (post_comments _ post_id) as [|kc l] eqn:E; [by apply elem_of_nil in Hin|].
  eexists. split; [reflexivity|].
  apply list_elem_of_fmap. exists (id, row). split; [reflexivity | done].
Qed.


End MoreProperties.

(** ** The further statements at the sample stores *)

Lemma create_post_adds_one_at_alice :
  (users db_alice !! 7 = None
   ∧ create_post db_alice 10 (schemas.PostCreate.mk "t" "c" 7) = Raise IntegrityError)
  ∧ is_Some (users db_alice !! 1)
  ∧ ∃ id, posts db_alice !! id = None
      ∧ create_post db_alice 10 (schemas.PostCreate.mk "t" "c" 1)
        = Ok (Post.__dict__ id (Post.mk "t" "c" 1 10),
              mkDB (users db_alice) (<[id := Post.mk "t" "c" 1 10]> (posts db_alice))
                   (comments db_alice)).
Proof.
  assert (is_Some (users db_alice !! 1)) as Hsome by (eexists; reflexivity).
  split.
  - split; [reflexivity|].
    apply (create_post_adds_one db_alice 10 (schemas.PostCreate.mk "t" "c" 7)).
    reflexivity.
  - split; [exact Hsome|].
    exact (proj2 (create_post_adds_one db_alice 10 (schemas.PostCreate.mk "t" "c" 1))
             Hsome).
Defined.

Lemma get_post_after_create_at_alice :
  create_post db_alice 10 (schemas.PostCreate.mk "t" "c" 1)
  = Ok (Post.__dict__ 1 (Post.mk "t" "c" 1 10),
        mkDB (users db_alice) (<[1 := Post.mk "t" "c" 1 10]> (posts db_alice))
             (comments db_alice))
  ∧ ∃ id, dict_get "id" (Post.__dict__ 1 (Post.mk "t" "c" 1 10)) = Some (PInt id)
      ∧ get_post db_alice id = Ok None
      ∧ get_post (mkDB (users db_alice) (<[1 := Post.mk "t" "c" 1 10]> (posts db_alice))
                       (comments db_alice)) id
        = Ok (Some (Post.__dict__ 1 (Post.mk "t" "c" 1 10))).
Proof.
  assert (create_post db_alice 10 (schemas.PostCreate.mk "t" "c" 1)
          = Ok (Post.__dict__ 1 (Post.mk "t" "c" 1 10),
                mkDB (users db_alice) (<[1 := Post.mk "t" "c" 1 10]> (posts db_alice))
                     (comments db_alice))) as Hcreate by (vm_compute; reflexivity).
  split; [exact Hcreate|].
  exact (get_post_after_create db_alice _ 10 _ _ Hcreate).
Defined.

Lemma update_post_applies_at_blog :
  posts db_blog !! 1 = Some (Post.mk "t" "c" 1 10)
  ∧ update_post db_blog 1 (schemas.PostUpdate.mk (schemas.Given "title") schemas.Null)
    = Ok (Some (Post.__dict__ 1 (Post.mk "title" "c" 1 10)),
          mkDB (users db_blog) (<[1 := Post.mk "title" "c" 1 10]> (posts db_blog))
               (comments db_blog)).
Proof.
  split; [reflexivity|].
  apply (update_post_applies db_blog 1 (Post.mk "t" "c" 1 10)
           (schemas.Given "title") schemas.Null).
  reflexivity.
Defined.

Lemma update_user_nulls_skipped_at_alice :
  users db_alice !! 1 = Some alice_row
  ∧ update_user sample_context db_alice "s2" 1
      (schemas.UserUpdate.mk schemas.Null schemas.Null schemas.Unset)
    = Ok (Some [("id", PInt 1); ("username", PStr "alice"); ("email", PStr "a@x.com")],
          db_alice).
Proof.
  split; [reflexivity|].
  apply (update_user_nulls_skipped sample_context db_alice "s2" 1 alice_row).
  reflexivity.
Defined.

Lemma update_user_password_hashed_at_alice :
  users db_alice !! 1 = Some alice_row
  ∧ update_user sample_context db_alice "s2" 1
      (schemas.UserUpdate.mk schemas.Unset schemas.Unset (schemas.Given "hunter2"))
    = Ok (Some [("id", PInt 1); ("username", PStr "alice"); ("email", PStr "a@x.com")],
          mkDB (<[1 := User.mk "alice" "a@x.com" "$s2$hunter2"]> (users db_alice))
               (posts db_alice) (comments db_alice)).
Proof.
  split; [reflexivity|].
  apply (update_user_password_hashed sample_context db_alice "s2" 1 alice_row
           schemas.Unset "hunter2").
  reflexivity.
Defined.

Lemma delete_user_restricted_at_samples :
  (users db_alice !! 9 = None ∧ delete_user db_alice 9 = Ok (false, db_alice))
  ∧ (is_Some (users db_blog !! 1)
     ∧ (∃ cid c, comments db_blog !! cid = Some c ∧ Comment.owner_id c = 1)
     ∧ delete_user db_blog 1 = Raise IntegrityError)
  ∧ (is_Some (users db_alice !! 1)
     ∧ (∀ pid p, posts db_alice !! pid = Some p → Post.owner_id p ≠ 1)
     ∧ (∀ cid c, comments db_alice !! cid = Some c → Comment.owner_id c ≠ 1)
     ∧ delete_user db_alice 1
       = Ok (true, mkDB (delete 1 (users db_alice)) (posts db_alice) (comments db_alice))).
Proof.
  assert (is_Some (users db_blog !! 1)) as Hblog by (eexists; reflexivity).
  assert (is_Some (users db_alice !! 1)) as Halice by (eexists; reflexivity).
  assert (∃ cid c, comments db_blog !! cid = Some c ∧ Comment.owner_id c = 1) as Howned
    by (exists 1, (Comment.mk 1 "nice" 1 20); split; reflexivity).
  assert (∀ pid p, posts db_alice !! pid = Some p → Post.owner_id p ≠ 1) as Hposts.
  { intros pid p. cbn [posts db_alice]. rewrite lookup_empty. discriminate. }
  assert (∀ cid c, comments db_alice !! cid = Some c → Comment.owner_id c ≠ 1) as Hcomments.
  { intros cid c. cbn [comments db_alice]. rewrite lookup_empty. discriminate. }
  split; [split; [reflexivity | apply (delete_user_restricted db_alice 9); reflexivity]|].
  split.
  - split; [exact Hblog|]. split; [exact Howned|].
    exact (proj1 (proj2 (delete_user_restricted db_blog 1)) Hblog (or_intror Howned)).
  - split; [exact Halice|]. split; [exact Hposts|]. split; [exact Hcomments|].
    exact (proj2 (proj2 (delete_user_restricted db_alice 1)) Halice Hposts Hcomments).
Defined.

Lemma delete_comment_then_absent_at_blog :
  comments db_blog !! 1 = Some (Comment.mk 1 "nice" 1 20)
  ∧ delete_comment db_blog 1
    = Ok (true, mkDB (users db_blog) (posts db_blog) (delete 1 (comments db_blog)))
  ∧ delete_comment (mkDB (users db_blog) (posts db_blog) (delete 1 (comments db_blog))) 1
    = Ok (false, mkDB (users db_blog) (posts db_blog) (delete 1 (comments db_blog)))
  ∧ update_comment (mkDB (users db_blog) (posts db_blog) (delete 1 (comments db_blog))) 1
      (schemas.CommentUpdate.mk "edited")
    = Ok (None, mkDB (users db_blog) (posts db_blog) (delete 1 (comments db_blog))).
Proof.
  split; [reflexivity|].
  apply (delete_comment_then_absent db_blog 1 (Comment.mk 1 "nice" 1 20)
           (schemas.CommentUpdate.mk "edited")).
  reflexivity.
Defined.

Lemma calls_keep_references_from_empty :
  references_ok empty_db
  ∧ references_ok
      (fold_left (store_after sample_context)
         [CreateUser "s1" alice;
          CreatePost 10 (schemas.PostCreate.mk "t" "c" 1);
          CreateComment 1 1 (schemas.CommentCreate.mk "nice") 20;
          DeleteUser 1;
          DeletePost 1]
         empty_db).
Proof.
  assert (references_ok empty_db) as Hempty.
  { split; intros id x; cbn [posts comments empty_db]; rewrite lookup_empty;
      discriminate. }
  split; [exact Hempty|].
  exact (calls_keep_references sample_context empty_db _ Hempty).
Defined.

Lemma get_posts_empty_page_at_five :
  (length (owner_posts db_five 1) ≤ 5)%nat
  ∧ get_posts db_five 1 5 2 = Ok None
  ∧ get_posts db_five 1 0 0 = Ok None.
Proof.
  assert (length (owner_posts db_five 1) ≤ 5)%nat as Hlen by (vm_compute; lia).
  split; [exact Hlen|]. split.
  - exact (get_posts_empty_page db_five 1 5 2 (or_intror Hlen)).
  - exact (get_posts_empty_page db_five 1 0 0 (or_introl eq_refl)).
Defined.

Lemma get_posts_some_at_five :
  get_posts db_five 1 0 2
  = Ok (Some [Post.__dict__ 5 (Post.mk "t" "c" 1 50);
              Post.__dict__ 4 (Post.mk "t" "c" 1 40)])
  ∧ [Post.__dict__ 5 (Post.mk "t" "c" 1 50); Post.__dict__ 4 (Post.mk "t" "c" 1 40)] ≠ []
  ∧ (length [Post.__dict__ 5 (Post.mk "t" "c" 1 50);
             Post.__dict__ 4 (Post.mk "t" "c" 1 40)] ≤ 2)%nat
  ∧ Forall (λ p, dict_get "owner_id" p = Some (PInt 1))
      [Post.__dict__ 5 (Post.mk "t" "c" 1 50); Post.__dict__ 4 (Post.mk "t" "c" 1 40)].
Proof.
  assert (get_posts db_five 1 0 2
          = Ok (Some [Post.__dict__ 5 (Post.mk "t" "c" 1 50);
                      Post.__dict__ 4 (Post.mk "t" "c" 1 40)])) as Hget
    by (vm_compute; reflexivity).
  split; [exact Hget|].
  exact (get_posts_some db_five 1 0 2 _ Hget).
Defined.

Lemma deleted_post_has_no_comments_at_blog :
  posts db_blog !! 1 = Some (Post.mk "t" "c" 1 10)
  ∧ ∃ db', delete_post db_blog 1 = Ok (true, db')
      ∧ get_post db' 1 = Ok None
      ∧ delete_post db' 1 = Ok (false, db')
      ∧ (∀ skip limit, get_comments db' 1 skip limit = Ok None)
      ∧ (∀ cid c comment, comments db_blog !! cid = Some c → Comment.post_id c = 1 →
           update_comment db' cid comment = Ok (None, db')
           ∧ delete_comment db' cid = Ok (false, db')).
Proof.
  split; [reflexivity|].
  apply (deleted_post_has_no_comments db_blog 1 (Post.mk "t" "c" 1 10)).
  reflexivity.
Defined.

Lemma created_user_is_found_alice :
  username_taken empty_db (schemas.UserCreate.username alice) = false
  ∧ ∃ id r db',
      create_user sample_context empty_db "s1" alice = Ok (r, db')
      ∧ get_user empty_db id = Ok None
      ∧ get_user db' id
        = Ok (Some [("id", PInt id); ("username", PStr "alice");
                    ("email", PStr "a@x.com")])
      ∧ get_user_by_username db' "alice" = get_user db' id
      ∧ get_full_user_by_username db' "alice"
        = Ok (Some [("id", PInt id); ("username", PStr "alice");
                    ("email", PStr "a@x.com");
                    ("hashed_password", PStr "$s1$secret")]).
Proof.
  split; [reflexivity|].
  apply (created_user_is_found sample_context empty_db "s1" alice).
  reflexivity.
Defined.

Lemma get_user_by_username_finds_at_alice :
  ((∀ id u, users db_alice !! id = Some u → User.username u ≠ "bob")
   ∧ get_user_by_username db_alice "bob" = Ok None
   ∧ get_full_user_by_username db_alice "bob" = Ok None)
  ∧ (∃ id u, users db_alice !! id = Some u ∧ User.username u = "alice")
  ∧ ∃ id u, users db_alice !! id = Some u
      ∧ get_user_by_username db_alice "alice"
        = Ok (Some [("id", PInt id); ("username", PStr "alice");
                    ("email", PStr (User.email u))])
      ∧ get_full_user_by_username db_alice "alice"
        = Ok (Some [("id", PInt id); ("username", PStr "alice");
                    ("email", PStr (User.email u));
                    ("hashed_password", PStr (User.hashed_password u))]).
Proof.
  assert (∀ id u, users db_alice !! id = Some u → User.username u ≠ "bob") as Hbob.
  { intros id u. cbn [users db_alice]. rewrite lookup_singleton_Some.
    intros [_ <-]. discriminate. }
  assert (∃ id u, users db_alice !! id = Some u ∧ User.username u = "alice") as Halice
    by (exists 1, alice_row; split; reflexivity).
  split.
  - split; [exact Hbob|].
    exact (proj1 (get_user_by_username_finds db_alice "bob") Hbob).
  - split; [exact Halice|].
    exact (proj2 (get_user_by_username_finds db_alice "alice") Halice).
Defined.

Lemma hash_update_data_drops_password_sample :
  (dict_get "password" [("email", PStr "a@b.com")] = None
   ∧ hash_update_data sample_context "s2" [("email", PStr "a@b.com")]
     = Ok [("email", PStr "a@b.com")])
  ∧ (dict_get "password" [("password", PStr "hunter2")] = Some (PStr "hunter2")
     ∧ ∃ d, hash_update_data sample_context "s2" [("password", PStr "hunter2")] = Ok d
         ∧ dict_get "password" d = None
         ∧ dict_get "hashed_password" d = Some (PStr "$s2$hunter2"))
  ∧ (dict_get "password" [("password", PNone)] = Some PNone
     ∧ (∀ p, PNone ≠ PStr p)
     ∧ hash_update_data sample_context "s2" [("password", PNone)] = Raise TypeError).
Proof.
  assert (∀ p, PNone ≠ PStr p) as Hnone by discriminate.
  split.
  - split; [reflexivity|].
    apply (hash_update_data_drops_password sample_context "s2" [("email", PStr "a@b.com")]).
    reflexivity.
  - split.
    + split; [reflexivity|].
      apply (hash_update_data_drops_password sample_context "s2"
               [("password", PStr "hunter2")]).
      reflexivity.
    + split; [reflexivity|]. split; [exact Hnone|].
      apply (proj2 (proj2 (hash_update_data_drops_password sample_context "s2"
                             [("password", PNone)])) PNone); [reflexivity | exact Hnone].
Defined.

Lemma created_comment_is_listed_at_blog :
  create_comment 1 1 (schemas.CommentCreate.mk "more") db_blog 30
  = Ok (Some [("id", PInt 2); ("content", PStr "more"); ("post_id", PInt 1);
              ("owner_id", PInt 1); ("created_at", PTime 30)],
        mkDB (users db_blog) (posts db_blog)
             (<[2 := Comment.mk 1 "more" 1 30]> (comments db_blog)))
  ∧ (length (post_comments
               (mkDB (users db_blog) (posts db_blog)
                     (<[2%Z := Comment.mk 1 "more" 1 30]> (comments db_blog))) 1) ≤ 5)%nat
  ∧ ∃ ps, get_comments
            (mkDB (users db_blog) (posts db_blog)
                  (<[2 := Comment.mk 1 "more" 1 30]> (comments db_blog))) 1 0 5
          = Ok (Some ps)
      ∧ [("id", PInt 2); ("content", PStr "more"); ("post_id", PInt 1);
         ("owner_id", PInt 1); ("created_at", PTime 30)] ∈ ps.
Proof.
  assert (create_comment 1 1 (schemas.CommentCreate.mk "more") db_blog 30
          = Ok (Some [("id", PInt 2); ("content", PStr "more"); ("post_id", PInt 1);
                      ("owner_id", PInt 1); ("created_at", PTime 30)],
                mkDB (users db_blog) (posts db_blog)
                     (<[2 := Comment.mk 1 "more" 1 30]> (comments db_blog)))) as Hcreate
    by (vm_compute; reflexivity).
  assert (length (post_comments
                    (mkDB (users db_blog) (posts db_blog)
                          (<[2%Z := Comment.mk 1 "more" 1 30]> (comments db_blog))) 1) ≤ 5)%nat
    as Hlen by (vm_compute; lia).
  split; [exact Hcreate|]. split; [exact Hlen|].
  exact (created_comment_is_listed 1 1 _ db_blog _ 30 _ 5 Hcreate Hlen).
Defined.
